(** * AI Scenario Builder: the generation pipeline and its properties

  A shallow embedding of the backend of the scenario builder
  (mockAI.js, diagramGenerator.js, schemaGenerator.js,
  workflowService.js and scenarioController.js), followed by the
  properties of the pipeline: classification, step templates, diagram
  synthesis, entity inference, the data model, and input validation.

  Strings are JavaScript strings whose code units are all below 256
  (Latin-1), held as [string]; on that range [toLowerCase], [trim],
  [includes] and [length] are modelled exactly. *)

From Stdlib Require Import NArith ZArith QArith Lqa Ascii String.
From Stdlib Require Import DecimalString DecimalPos DecimalN.
From stdpp Require Import base option list strings gmap.

Local Open Scope string_scope.

(** ** JavaScript strings *)

Module JsString.

(** U+000A, the separator of [Array.prototype.join('\n')]. *)
Definition newline : string := String (ascii_of_N 10) EmptyString.

(** U+0022, the double quote. *)
Definition dquote : ascii := ascii_of_N 34.

(** [String.prototype.toLowerCase] on one Latin-1 code unit: A-Z and the
    accented capitals U+00C0-U+00DE (U+00D7, the multiplication sign,
    excepted) move up by 32; everything else is left alone. *)
Definition toLowerChar (c : ascii) : ascii :=
  let n := N_of_ascii c in
  if ((65 <=? n) && (n <=? 90))%N
     || ((192 <=? n) && (n <=? 222) && negb (n =? 215))%N
  then ascii_of_N (n + 32)
  else c.

Fixpoint toLowerCase (s : string) : string :=
  match s with
  | EmptyString => EmptyString
  | String c rest => String (toLowerChar c) (toLowerCase rest)
  end.

(** [s.startsWith(p)] *)
Fixpoint startsWith (s p : string) {struct p} : bool :=
  match p, s with
  | EmptyString, _ => true
  | String _ _, EmptyString => false
  | String b p', String a s' => bool_decide (a = b) && startsWith s' p'
  end.

(** [s.includes(kw)]: [kw] starts at some position of [s]. *)
Fixpoint includes (s kw : string) : bool :=
  startsWith s kw
  || match s with
     | EmptyString => false
     | String _ rest => includes rest kw
     end.

(** The white space [trim] removes, on Latin-1: TAB, LF, VT, FF, CR,
    SPACE and NO-BREAK SPACE. *)
Definition isWhiteSpace (c : ascii) : bool :=
  let n := N_of_ascii c in
  ((9 <=? n) && (n <=? 13) || (n =? 32) || (n =? 160))%N.

Fixpoint trimStart (s : string) : string :=
  match s with
  | EmptyString => EmptyString
  | String c rest => if isWhiteSpace c then trimStart rest else s
  end.

(** Drops trailing white space: a character is kept when something after
    it is kept or when it is not white space itself. *)
Fixpoint trimEnd (s : string) : string :=
  match s with
  | EmptyString => EmptyString
  | String c rest =>
      match trimEnd rest with
      | EmptyString => if isWhiteSpace c then EmptyString else String c EmptyString
      | kept => String c kept
      end
  end.

Definition trim (s : string) : string := trimEnd (trimStart s).

(** [s.substring(0, n)] *)
Fixpoint take (n : nat) (s : string) : string :=
  match n, s with
  | S n', String c rest => String c (take n' rest)
  | _, _ => EmptyString
  end.

(** [lines.join(sep)] *)
Fixpoint join (sep : string) (lines : list string) : string :=
  match lines with
  | [] => EmptyString
  | [l] => l
  | l :: rest => l ++ sep ++ join sep rest
  end.

(** A global [replace] whose pattern matches single characters: each
    character is replaced by [f c]. *)
Fixpoint replaceEach (f : ascii -> string) (s : string) : string :=
  match s with
  | EmptyString => EmptyString
  | String c rest => f c ++ replaceEach f rest
  end.

(** A non-negative integer inside a template literal. *)
Definition ofNumber (n : N) : string := NilZero.string_of_uint (N.to_uint n).

End JsString.

(** ** Property reads on object literals *)

Module JsObject.

(** The properties every object literal inherits from
    [Object.prototype]; each of them is a function or an object, hence
    truthy. *)
Definition prototypeKeys : list string :=
  [ "constructor"; "hasOwnProperty"; "isPrototypeOf";
    "propertyIsEnumerable"; "toLocaleString"; "toString"; "valueOf";
    "__proto__"; "__defineGetter__"; "__defineSetter__";
    "__lookupGetter__"; "__lookupSetter__" ].

(** What a read of a table can deliver: a value of the table, or a
    built-in found on the prototype. *)
Inductive JsValue (A : Type) : Type :=
| JsData (a : A)
| JsBuiltin (key : string).
Arguments JsData {A} a.
Arguments JsBuiltin {A} key.

#[global] Instance JsValue_eq_dec {A : Type} `{EqDecision A} : EqDecision (JsValue A).
Proof. solve_decision. Defined.

(** [table[key]], [None] standing for [undefined]. The own properties of
    the tables below are all truthy (arrays, objects, non-empty strings). *)
Definition get {A : Type} (own : gmap string A) (key : string) : option (JsValue A) :=
  match own !! key with
  | Some v => Some (JsData v)
  | None => if bool_decide (key ∈ prototypeKeys) then Some (JsBuiltin key) else None
  end.

(** [table[key] || fallback] *)
Definition getOr {A : Type} (own : gmap string A) (key : string) (fallback : A) : JsValue A :=
  default (JsData fallback) (get own key).

End JsObject.

Export JsObject.

(** ** mockAI.js *)

Module MockAI.

(** A workflow step: [{ id, name, description, type }]. *)
Record WorkflowStep : Type := mkStep {
  step_id : N;
  step_name : string;
  step_description : string;
  step_type : string
}.

#[global] Instance WorkflowStep_eq_dec : EqDecision WorkflowStep.
Proof. solve_decision. Defined.

(** The keyword table of [analyzeDescription]; [Object.entries] walks it
    in the order it is written. *)
Definition types : list (string * list string) :=
  [
    ("ecommerce", ["shop"; "cart"; "buy"; "purchase"; "order"; "payment"; "checkout"; "product"]);
    ("auth", ["login"; "signup"; "register"; "password"; "authentication"; "user account"]);
    ("booking", ["book"; "reserve"; "appointment"; "schedule"; "calendar"]);
    ("support", ["ticket"; "support"; "help"; "issue"; "complaint"; "customer service"]);
    ("content", ["post"; "blog"; "article"; "publish"; "content"; "write"]);
    ("workflow", ["approval"; "review"; "process"; "workflow"; "task"; "assign"]);
    ("data", ["import"; "export"; "sync"; "migrate"; "transfer"; "data"]);
    ("notification", ["notify"; "alert"; "email"; "sms"; "notification"; "remind"]) ].

Record Analysis : Type := mkAnalysis {
  analysis_type : string;
  analysis_description : string
}.

(** The [for ... of] loop with its [break]: the first entry one of whose
    keywords occurs in [lowerDesc] sets [detectedType]. *)
Fixpoint detectType (entries : list (string * list string)) (lowerDesc : string)
    (detectedType : string) : string :=
  match entries with
  | [] => detectedType
  | (type, keywords) :: rest =>
      if existsb (fun kw => JsString.includes lowerDesc kw) keywords
      then type
      else detectType rest lowerDesc detectedType
  end.

Definition analyzeDescription (description : string) : Analysis :=
  let lowerDesc := JsString.toLowerCase description in
  let detectedType := detectType types lowerDesc "general" in
  {| analysis_type := detectedType; analysis_description := lowerDesc |}.

Definition template_ecommerce : list WorkflowStep :=
  [ mkStep 1 "Browse Products" "User browses available products" "user_action";
    mkStep 2 "Add to Cart" "User adds selected items to shopping cart" "user_action";
    mkStep 3 "Validate Cart" "System validates cart items and availability" "system_check";
    mkStep 4 "Enter Shipping Info" "User provides shipping address" "user_input";
    mkStep 5 "Select Payment Method" "User chooses payment option" "user_action";
    mkStep 6 "Process Payment" "System processes the payment transaction" "system_action";
    mkStep 7 "Payment Verification" "Verify payment success or failure" "decision";
    mkStep 8 "Generate Order" "System creates order record" "system_action";
    mkStep 9 "Send Confirmation" "Email confirmation sent to user" "notification";
    mkStep 10 "Update Inventory" "System updates product inventory" "system_action" ].

Definition template_auth : list WorkflowStep :=
  [ mkStep 1 "Enter Credentials" "User enters username/email and password" "user_input";
    mkStep 2 "Validate Input" "System validates input format" "system_check";
    mkStep 3 "Check User Exists" "Database lookup for user record" "database_query";
    mkStep 4 "Verify Password" "Compare password hash" "system_check";
    mkStep 5 "Authentication Decision" "Determine if credentials are valid" "decision";
    mkStep 6 "Generate Session" "Create session token or JWT" "system_action";
    mkStep 7 "Log Authentication" "Record login attempt for security" "logging";
    mkStep 8 "Redirect User" "Send user to dashboard or home" "navigation" ].

Definition template_booking : list WorkflowStep :=
  [ mkStep 1 "Select Service" "User chooses the service to book" "user_action";
    mkStep 2 "Check Availability" "System checks available time slots" "system_check";
    mkStep 3 "Display Slots" "Show available dates and times" "display";
    mkStep 4 "Select Time Slot" "User picks preferred date and time" "user_action";
    mkStep 5 "Enter Details" "User provides contact and booking details" "user_input";
    mkStep 6 "Validate Booking" "System validates the booking request" "system_check";
    mkStep 7 "Create Reservation" "System creates the booking record" "database_write";
    mkStep 8 "Send Confirmation" "Email/SMS confirmation sent" "notification";
    mkStep 9 "Add to Calendar" "Optional calendar integration" "integration" ].

Definition template_support : list WorkflowStep :=
  [ mkStep 1 "Open Ticket Form" "User accesses support request form" "navigation";
    mkStep 2 "Select Category" "User chooses issue category" "user_action";
    mkStep 3 "Describe Issue" "User describes the problem in detail" "user_input";
    mkStep 4 "Attach Files" "User uploads supporting documents" "user_action";
    mkStep 5 "Auto-Categorize" "AI analyzes and tags the ticket" "ai_process";
    mkStep 6 "Priority Assignment" "System assigns priority level" "system_action";
    mkStep 7 "Route to Agent" "Ticket assigned to appropriate agent" "system_action";
    mkStep 8 "Notify User" "Confirmation sent with ticket number" "notification";
    mkStep 9 "Notify Agent" "Agent receives new ticket alert" "notification" ].

Definition template_content : list WorkflowStep :=
  [ mkStep 1 "Create Draft" "User starts new content draft" "user_action";
    mkStep 2 "Write Content" "User writes the main content" "user_input";
    mkStep 3 "Add Media" "User uploads images or videos" "user_action";
    mkStep 4 "Set Metadata" "User adds title, tags, category" "user_input";
    mkStep 5 "Preview Content" "System renders preview" "display";
    mkStep 6 "Content Validation" "System checks for required fields" "system_check";
    mkStep 7 "Submit for Review" "Content sent for approval" "workflow_action";
    mkStep 8 "Review Decision" "Reviewer approves or requests changes" "decision";
    mkStep 9 "Publish Content" "Content goes live" "system_action";
    mkStep 10 "Notify Subscribers" "Followers notified of new content" "notification" ].

Definition template_workflow : list WorkflowStep :=
  [ mkStep 1 "Task Creation" "New task or request is created" "trigger";
    mkStep 2 "Initial Review" "First level review of the request" "review";
    mkStep 3 "Completeness Check" "Verify all required info is present" "system_check";
    mkStep 4 "Assign Reviewer" "Route to appropriate reviewer" "system_action";
    mkStep 5 "Review Process" "Reviewer examines the request" "user_action";
    mkStep 6 "Approval Decision" "Approve, reject, or request changes" "decision";
    mkStep 7 "Handle Rejection" "Process rejection with feedback" "conditional";
    mkStep 8 "Execute Approval" "Perform the approved action" "system_action";
    mkStep 9 "Audit Log" "Record the complete workflow trail" "logging";
    mkStep 10 "Notify Stakeholders" "Inform all parties of outcome" "notification" ].

Definition template_data : list WorkflowStep :=
  [ mkStep 1 "Select Source" "Choose data source for operation" "user_action";
    mkStep 2 "Configure Mapping" "Define field mappings" "user_input";
    mkStep 3 "Validate Configuration" "System checks configuration validity" "system_check";
    mkStep 4 "Preview Data" "Show sample of data to be processed" "display";
    mkStep 5 "Confirm Operation" "User confirms to proceed" "user_action";
    mkStep 6 "Extract Data" "Read data from source" "data_operation";
    mkStep 7 "Transform Data" "Apply transformations and mappings" "data_operation";
    mkStep 8 "Validate Data" "Check data integrity and format" "system_check";
    mkStep 9 "Load Data" "Write data to destination" "data_operation";
    mkStep 10 "Generate Report" "Create operation summary report" "system_action" ].

Definition template_notification : list WorkflowStep :=
  [ mkStep 1 "Trigger Event" "Event occurs that requires notification" "trigger";
    mkStep 2 "Fetch Recipients" "Query notification preferences" "database_query";
    mkStep 3 "Filter Recipients" "Apply opt-out and preferences" "system_check";
    mkStep 4 "Prepare Content" "Generate notification content" "system_action";
    mkStep 5 "Channel Selection" "Determine delivery channel" "decision";
    mkStep 6 "Queue Notification" "Add to notification queue" "system_action";
    mkStep 7 "Send Notification" "Dispatch via selected channel" "integration";
    mkStep 8 "Track Delivery" "Monitor delivery status" "logging";
    mkStep 9 "Handle Failures" "Retry or escalate failed sends" "error_handling" ].

Definition template_general : list WorkflowStep :=
  [ mkStep 1 "Initialize Process" "Start the workflow process" "trigger";
    mkStep 2 "Gather Input" "Collect required information" "user_input";
    mkStep 3 "Validate Input" "Check input completeness and format" "system_check";
    mkStep 4 "Process Request" "Execute main business logic" "system_action";
    mkStep 5 "Decision Point" "Evaluate conditions for next step" "decision";
    mkStep 6 "Execute Action" "Perform the required action" "system_action";
    mkStep 7 "Store Results" "Save outcome to database" "database_write";
    mkStep 8 "Generate Response" "Prepare response for user" "system_action";
    mkStep 9 "Send Notifications" "Alert relevant parties" "notification";
    mkStep 10 "Complete Process" "Finalize and close the workflow" "end" ].

Definition templates : gmap string (list WorkflowStep) :=
  list_to_map
    [ ("ecommerce", template_ecommerce);
      ("auth", template_auth);
      ("booking", template_booking);
      ("support", template_support);
      ("content", template_content);
      ("workflow", template_workflow);
      ("data", template_data);
      ("notification", template_notification);
      ("general", template_general) ].

(** [templates[type] || templates.general]; [description] is accepted and
    not used. *)
Definition generateStepsForType (type description : string) : JsValue (list WorkflowStep) :=
  JsObject.getOr templates type template_general.

Definition summary_general : string :=
  "This workflow outlines a structured process to accomplish the described scenario. It includes input handling, processing logic, and appropriate notifications.".

Definition summaries : gmap string string :=
  list_to_map
    [
      ("ecommerce",
       "This e-commerce workflow handles the complete purchase journey from product browsing to order confirmation. It includes cart management, payment processing, and inventory updates to ensure a smooth shopping experience.");
      ("auth",
       "This authentication workflow securely handles user login with input validation, credential verification, and session management. It includes security logging for audit purposes.");
      ("booking",
       "This booking workflow manages appointment scheduling from service selection to confirmation. It includes availability checking, slot selection, and calendar integration capabilities.");
      ("support",
       "This customer support workflow handles ticket creation and routing. It uses AI-powered categorization and priority assignment to ensure efficient issue resolution.");
      ("content",
       "This content management workflow covers the complete publishing lifecycle from draft creation to publication. It includes review processes and subscriber notifications.");
      ("workflow",
       "This approval workflow manages multi-level review processes with proper routing, decision handling, and audit logging for compliance.");
      ("data",
       "This data operation workflow handles ETL (Extract, Transform, Load) processes with validation, preview, and comprehensive reporting.");
      ("notification",
       "This notification workflow manages multi-channel message delivery with preference handling, delivery tracking, and failure recovery.");
      ("general",
       "This workflow outlines a structured process to accomplish the described scenario. It includes input handling, processing logic, and appropriate notifications.") ].

(** [summaries[type] || summaries.general] *)
Definition generateSummary (type description : string) : JsValue string :=
  JsObject.getOr summaries type summary_general.

End MockAI.

Export MockAI.

(** ** diagramGenerator.js *)

Module DiagramGenerator.

(** The opening and closing brackets of a node shape. *)
Record Shape : Type := mkShape {
  shape_open : string;
  shape_close : string
}.

Definition shapes : gmap string Shape :=
  list_to_map
    [ ("trigger", mkShape "([" "])");
      ("end", mkShape "([" "])");
      ("decision", mkShape "{" "}");
      ("user_action", mkShape "[" "]");
      ("user_input", mkShape "[/" "/]");
      ("system_action", mkShape "[[" "]]");
      ("system_check", mkShape "{{" "}}");
      ("database_query", mkShape "[(" ")]");
      ("database_write", mkShape "[(" ")]");
      ("notification", mkShape ">" "]");
      ("navigation", mkShape "[" "]");
      ("display", mkShape "[" "]");
      ("logging", mkShape "[(" ")]");
      ("integration", mkShape "[[" "]]");
      ("review", mkShape "[" "]");
      ("workflow_action", mkShape "[[" "]]");
      ("conditional", mkShape "{" "}");
      ("ai_process", mkShape "[[" "]]");
      ("data_operation", mkShape "[[" "]]");
      ("error_handling", mkShape "{" "}") ].

(** [shapes[type] || { open: '[', close: ']' }] *)
Definition getNodeShape (type : string) : JsValue Shape :=
  JsObject.getOr shapes type (mkShape "[" "]").

(** [shape.open] and [shape.close] inside a template literal; a built-in
    has neither property, and [undefined] prints as its name. *)
Definition printOpen (shape : JsValue Shape) : string :=
  match shape with
  | JsData s => shape_open s
  | JsBuiltin _ => "undefined"
  end.

Definition printClose (shape : JsValue Shape) : string :=
  match shape with
  | JsData s => shape_close s
  | JsBuiltin _ => "undefined"
  end.

Definition nodeId (id : N) : string := "step" ++ JsString.ofNumber id.

(** The four [replace] passes of [escapeLabel], in source order. *)
Definition quoteToApostrophe (c : ascii) : string :=
  if bool_decide (c = JsString.dquote) then "'" else String c EmptyString.

Definition dropBracket (c : ascii) : string :=
  if bool_decide (c ∈ ["["; "]"; "{"; "}"; "("; ")"]%char)
  then EmptyString
  else String c EmptyString.

Definition arrowRight (c : ascii) : string :=
  if bool_decide (c = ">"%char) then "->" else String c EmptyString.

Definition arrowLeft (c : ascii) : string :=
  if bool_decide (c = "<"%char) then "<-" else String c EmptyString.

Definition escapeLabel (text : string) : string :=
  JsString.replaceEach arrowLeft
    (JsString.replaceEach arrowRight
      (JsString.replaceEach dropBracket
        (JsString.replaceEach quoteToApostrophe text))).

(** [lines.push(l)] *)
Definition push (lines : list string) (l : string) : list string := lines ++ [l].

Definition isBranch (step : WorkflowStep) : bool :=
  (step_type step =? "decision") || (step_type step =? "conditional").

Definition nodeLine (step : WorkflowStep) : string :=
  let shape := getNodeShape (step_type step) in
  let label := escapeLabel (step_name step) in
  "  " ++ nodeId (step_id step) ++ printOpen shape
    ++ String JsString.dquote label ++ String JsString.dquote (printClose shape).

Definition yesEdge (current next : WorkflowStep) : string :=
  "  " ++ nodeId (step_id current) ++ " -->|Yes| " ++ nodeId (step_id next).

Definition noEdge (current skipped : WorkflowStep) : string :=
  "  " ++ nodeId (step_id current) ++ " -.->|No| " ++ nodeId (step_id skipped).

Definition plainEdge (current next : WorkflowStep) : string :=
  "  " ++ nodeId (step_id current) ++ " --> " ++ nodeId (step_id next).

(** The body of the connection loop at index [i]. The loop bound keeps
    [workflow[i]] and [workflow[i + 1]] inside the array, and the inner
    test does so for [workflow[i + 2]]; the arms for a missing element are
    there for totality only. *)
Definition connect (workflow : list WorkflowStep) (lines : list string) (i : nat)
    : list string :=
  match workflow !! i, workflow !! (i + 1)%nat with
  | Some current, Some next =>
      if isBranch current then
        let lines := push lines (yesEdge current next) in
        if (i + 2 <? length workflow)%nat then
          match workflow !! (i + 2)%nat with
          | Some skipped => push lines (noEdge current skipped)
          | None => lines
          end
        else lines
      else push lines (plainEdge current next)
  | _, _ => lines
  end.

(** [for (let i = 0; i < workflow.length - 1; i++)] *)
Definition connections (workflow : list WorkflowStep) (lines : list string) : list string :=
  fold_left (connect workflow) (seq 0 (length workflow - 1)) lines.

Definition styleClass (step : WorkflowStep) : string :=
  if (step_type step =? "trigger") || (step_type step =? "end") then "trigger"
  else if (step_type step =? "decision") || (step_type step =? "conditional") then "decision"
  else if (step_type step =? "notification") then "notification"
  else if JsString.includes (step_type step) "database" then "database"
  else if JsString.includes (step_type step) "system" then "system"
  else "action".

Definition styleLine (step : WorkflowStep) : string :=
  "  class " ++ nodeId (step_id step) ++ " " ++ styleClass step.

Definition preamble : list string :=
  [ "graph TD";
    "  %% Style definitions";
    "  classDef trigger fill:#e1f5fe,stroke:#01579b";
    "  classDef decision fill:#fff3e0,stroke:#e65100";
    "  classDef action fill:#e8f5e9,stroke:#1b5e20";
    "  classDef notification fill:#fce4ec,stroke:#880e4f";
    "  classDef database fill:#f3e5f5,stroke:#4a148c";
    "  classDef system fill:#e3f2fd,stroke:#0d47a1";
    EmptyString ].

(** The [lines] array of a non-empty workflow, push by push. *)
Definition diagramLines (workflow : list WorkflowStep) : list string :=
  let lines := preamble in
  let lines := push lines "  %% Nodes" in
  let lines := fold_left (fun lines step => push lines (nodeLine step)) workflow lines in
  let lines := push lines EmptyString in
  let lines := push lines "  %% Connections" in
  let lines := connections workflow lines in
  let lines := push lines EmptyString in
  let lines := push lines "  %% Apply styles" in
  fold_left (fun lines step => push lines (styleLine step)) workflow lines.

Definition emptyDiagram : string :=
  "graph TD" ++ JsString.newline ++ "  empty[No workflow steps]".

(** [workflow] is [None] when the argument is missing ([undefined] or
    [null]). *)
Definition generateMermaidDiagram (workflow : option (list WorkflowStep)) : string :=
  match workflow with
  | None => emptyDiagram
  | Some workflow =>
      if (length workflow =? 0)%nat then emptyDiagram
      else JsString.join JsString.newline (diagramLines workflow)
  end.

End DiagramGenerator.

Export DiagramGenerator.

(** ** schemaGenerator.js *)

Module SchemaGenerator.

(** [entities.add(entity)] on a [Set], kept in insertion order. *)
Definition setAdd (entities : list string) (entity : string) : list string :=
  if bool_decide (entity ∈ entities) then entities else entities ++ [entity].

(** [if (cond) entities.add(entity)] *)
Definition addWhen (cond : bool) (entity : string) (entities : list string) : list string :=
  if cond then setAdd entities entity else entities.

(** The text the keyword tests of a step run on. *)
Definition stepText (step : WorkflowStep) : string :=
  JsString.toLowerCase (step_name step ++ " " ++ step_description step).

(** The callback of [workflow.forEach]. *)
Definition scanStep (entities : list string) (step : WorkflowStep) : list string :=
  let has := JsString.includes (stepText step) in
  let entities := addWhen (has "user" || has "credential") "User" entities in
  let entities := addWhen (has "product" || has "item") "Product" entities in
  let entities := addWhen (has "order" || has "purchase") "Order" entities in
  let entities := addWhen (has "cart") "Cart" entities in
  let entities := addWhen (has "payment") "Payment" entities in
  let entities := addWhen (has "ticket" || has "issue") "Ticket" entities in
  let entities :=
    addWhen (has "booking" || has "reservation" || has "appointment") "Booking" entities in
  let entities := addWhen (has "content" || has "post" || has "article") "Content" entities in
  let entities := addWhen (has "notification" || has "alert") "Notification" entities in
  let entities := addWhen (has "session" || has "token") "Session" entities in
  addWhen (has "task" || has "workflow") "Task" entities.

Definition extractEntities (workflow : list WorkflowStep) : list string :=
  let entities := fold_left scanStep workflow [] in
  if (length entities =? 0)%nat then setAdd entities "Record" else entities.

(** The values of the schema table. *)
#[warnings="-register-all"]
Inductive Json : Type :=
| JsonString (s : string)
| JsonNumber (n : Z)
| JsonBool (b : bool)
| JsonArray (items : list Json)
| JsonObject (fields : list (string * Json)).

Definition schema_User : Json :=
  JsonObject
    [ ("type", JsonString "object");
      ("properties", JsonObject
        [ ("id", JsonObject
            [ ("type", JsonString "string");
              ("format", JsonString "uuid");
              ("description", JsonString "Unique user identifier") ]);
          ("email", JsonObject
            [ ("type", JsonString "string");
              ("format", JsonString "email");
              ("description", JsonString "User email address") ]);
          ("name", JsonObject
            [ ("type", JsonString "string");
              ("description", JsonString "User full name") ]);
          ("role", JsonObject
            [ ("type", JsonString "string");
              ("enum", JsonArray [JsonString "user"; JsonString "admin"; JsonString "moderator"]);
              ("description", JsonString "User role") ]);
          ("created_at", JsonObject
            [ ("type", JsonString "string");
              ("format", JsonString "date-time");
              ("description", JsonString "Account creation timestamp") ]);
          ("updated_at", JsonObject
            [ ("type", JsonString "string");
              ("format", JsonString "date-time");
              ("description", JsonString "Last update timestamp") ]) ]);
      ("required", JsonArray [JsonString "id"; JsonString "email"]) ].

Definition schema_Product : Json :=
  JsonObject
    [ ("type", JsonString "object");
      ("properties", JsonObject
        [ ("id", JsonObject
            [ ("type", JsonString "string");
              ("format", JsonString "uuid");
              ("description", JsonString "Product identifier") ]);
          ("name", JsonObject
            [ ("type", JsonString "string");
              ("description", JsonString "Product name") ]);
          ("description", JsonObject
            [ ("type", JsonString "string");
              ("description", JsonString "Product description") ]);
          ("price", JsonObject
            [ ("type", JsonString "number");
              ("minimum", JsonNumber 0);
              ("description", JsonString "Product price") ]);
          ("inventory", JsonObject
            [ ("type", JsonString "integer");
              ("minimum", JsonNumber 0);
              ("description", JsonString "Available quantity") ]);
          ("category", JsonObject
            [ ("type", JsonString "string");
              ("description", JsonString "Product category") ]) ]);
      ("required", JsonArray [JsonString "id"; JsonString "name"; JsonString "price"]) ].

Definition schema_Order : Json :=
  JsonObject
    [ ("type", JsonString "object");
      ("properties", JsonObject
        [ ("id", JsonObject
            [ ("type", JsonString "string");
              ("format", JsonString "uuid");
              ("description", JsonString "Order identifier") ]);
          ("user_id", JsonObject
            [ ("type", JsonString "string");
              ("format", JsonString "uuid");
              ("description", JsonString "Customer reference") ]);
          ("items", JsonObject
            [ ("type", JsonString "array");
              ("items", JsonObject [("type", JsonString "object")]);
              ("description", JsonString "Order items") ]);
          ("total", JsonObject
            [ ("type", JsonString "number");
              ("minimum", JsonNumber 0);
              ("description", JsonString "Order total") ]);
          ("status", JsonObject
            [ ("type", JsonString "string");
              ("enum", JsonArray [JsonString "pending"; JsonString "paid"; JsonString "shipped"; JsonString "delivered"; JsonString "cancelled"]) ]);
          ("created_at", JsonObject [("type", JsonString "string"); ("format", JsonString "date-time")]) ]);
      ("required", JsonArray [JsonString "id"; JsonString "user_id"; JsonString "items"; JsonString "total"; JsonString "status"]) ].

Definition schema_Cart : Json :=
  JsonObject
    [ ("type", JsonString "object");
      ("properties", JsonObject
        [ ("id", JsonObject
            [ ("type", JsonString "string");
              ("format", JsonString "uuid");
              ("description", JsonString "Cart identifier") ]);
          ("user_id", JsonObject
            [ ("type", JsonString "string");
              ("format", JsonString "uuid");
              ("description", JsonString "User reference") ]);
          ("items", JsonObject
            [ ("type", JsonString "array");
              ("items", JsonObject [("type", JsonString "object")]);
              ("description", JsonString "Cart items") ]);
          ("subtotal", JsonObject
            [ ("type", JsonString "number");
              ("minimum", JsonNumber 0);
              ("description", JsonString "Cart subtotal") ]);
          ("updated_at", JsonObject [("type", JsonString "string"); ("format", JsonString "date-time")]) ]);
      ("required", JsonArray [JsonString "id"; JsonString "items"]) ].

Definition schema_Payment : Json :=
  JsonObject
    [ ("type", JsonString "object");
      ("properties", JsonObject
        [ ("id", JsonObject
            [ ("type", JsonString "string");
              ("format", JsonString "uuid");
              ("description", JsonString "Payment identifier") ]);
          ("order_id", JsonObject
            [ ("type", JsonString "string");
              ("format", JsonString "uuid");
              ("description", JsonString "Order reference") ]);
          ("amount", JsonObject
            [ ("type", JsonString "number");
              ("minimum", JsonNumber 0);
              ("description", JsonString "Payment amount") ]);
          ("method", JsonObject
            [ ("type", JsonString "string");
              ("enum", JsonArray [JsonString "card"; JsonString "paypal"; JsonString "bank_transfer"]) ]);
          ("status", JsonObject
            [ ("type", JsonString "string");
              ("enum", JsonArray [JsonString "pending"; JsonString "completed"; JsonString "failed"; JsonString "refunded"]) ]);
          ("processed_at", JsonObject [("type", JsonString "string"); ("format", JsonString "date-time")]) ]);
      ("required", JsonArray [JsonString "id"; JsonString "order_id"; JsonString "amount"; JsonString "status"]) ].

Definition schema_Ticket : Json :=
  JsonObject
    [ ("type", JsonString "object");
      ("properties", JsonObject
        [ ("id", JsonObject
            [ ("type", JsonString "string");
              ("format", JsonString "uuid");
              ("description", JsonString "Ticket identifier") ]);
          ("user_id", JsonObject
            [ ("type", JsonString "string");
              ("format", JsonString "uuid");
              ("description", JsonString "Submitter reference") ]);
          ("subject", JsonObject
            [ ("type", JsonString "string");
              ("description", JsonString "Ticket subject") ]);
          ("description", JsonObject
            [ ("type", JsonString "string");
              ("description", JsonString "Issue description") ]);
          ("category", JsonObject
            [ ("type", JsonString "string");
              ("description", JsonString "Issue category") ]);
          ("priority", JsonObject
            [ ("type", JsonString "string");
              ("enum", JsonArray [JsonString "low"; JsonString "medium"; JsonString "high"; JsonString "urgent"]) ]);
          ("status", JsonObject
            [ ("type", JsonString "string");
              ("enum", JsonArray [JsonString "open"; JsonString "in_progress"; JsonString "resolved"; JsonString "closed"]) ]);
          ("assigned_to", JsonObject
            [ ("type", JsonString "string");
              ("format", JsonString "uuid");
              ("description", JsonString "Agent reference") ]);
          ("created_at", JsonObject [("type", JsonString "string"); ("format", JsonString "date-time")]) ]);
      ("required", JsonArray [JsonString "id"; JsonString "subject"; JsonString "status"]) ].

Definition schema_Booking : Json :=
  JsonObject
    [ ("type", JsonString "object");
      ("properties", JsonObject
        [ ("id", JsonObject
            [ ("type", JsonString "string");
              ("format", JsonString "uuid");
              ("description", JsonString "Booking identifier") ]);
          ("user_id", JsonObject
            [ ("type", JsonString "string");
              ("format", JsonString "uuid");
              ("description", JsonString "Customer reference") ]);
          ("service", JsonObject
            [ ("type", JsonString "string");
              ("description", JsonString "Service booked") ]);
          ("date", JsonObject
            [ ("type", JsonString "string");
              ("format", JsonString "date");
              ("description", JsonString "Booking date") ]);
          ("time_slot", JsonObject [("type", JsonString "string"); ("description", JsonString "Time slot")]);
          ("status", JsonObject
            [ ("type", JsonString "string");
              ("enum", JsonArray [JsonString "confirmed"; JsonString "pending"; JsonString "cancelled"; JsonString "completed"]) ]);
          ("notes", JsonObject
            [ ("type", JsonString "string");
              ("description", JsonString "Additional notes") ]) ]);
      ("required", JsonArray [JsonString "id"; JsonString "user_id"; JsonString "service"; JsonString "date"; JsonString "status"]) ].

Definition schema_Content : Json :=
  JsonObject
    [ ("type", JsonString "object");
      ("properties", JsonObject
        [ ("id", JsonObject
            [ ("type", JsonString "string");
              ("format", JsonString "uuid");
              ("description", JsonString "Content identifier") ]);
          ("author_id", JsonObject
            [ ("type", JsonString "string");
              ("format", JsonString "uuid");
              ("description", JsonString "Author reference") ]);
          ("title", JsonObject
            [ ("type", JsonString "string");
              ("description", JsonString "Content title") ]);
          ("body", JsonObject
            [ ("type", JsonString "string");
              ("description", JsonString "Content body") ]);
          ("tags", JsonObject
            [ ("type", JsonString "array");
              ("items", JsonObject [("type", JsonString "string")]);
              ("description", JsonString "Content tags") ]);
          ("status", JsonObject
            [ ("type", JsonString "string");
              ("enum", JsonArray [JsonString "draft"; JsonString "review"; JsonString "published"; JsonString "archived"]) ]);
          ("published_at", JsonObject [("type", JsonString "string"); ("format", JsonString "date-time")]) ]);
      ("required", JsonArray [JsonString "id"; JsonString "title"; JsonString "body"; JsonString "status"]) ].

Definition schema_Notification : Json :=
  JsonObject
    [ ("type", JsonString "object");
      ("properties", JsonObject
        [ ("id", JsonObject
            [ ("type", JsonString "string");
              ("format", JsonString "uuid");
              ("description", JsonString "Notification identifier") ]);
          ("user_id", JsonObject
            [ ("type", JsonString "string");
              ("format", JsonString "uuid");
              ("description", JsonString "Recipient reference") ]);
          ("type", JsonObject
            [ ("type", JsonString "string");
              ("description", JsonString "Notification type") ]);
          ("channel", JsonObject
            [ ("type", JsonString "string");
              ("enum", JsonArray [JsonString "email"; JsonString "sms"; JsonString "push"; JsonString "in_app"]) ]);
          ("content", JsonObject
            [ ("type", JsonString "string");
              ("description", JsonString "Message content") ]);
          ("read", JsonObject [("type", JsonString "boolean"); ("default", JsonBool false)]);
          ("sent_at", JsonObject [("type", JsonString "string"); ("format", JsonString "date-time")]) ]);
      ("required", JsonArray [JsonString "id"; JsonString "user_id"; JsonString "type"; JsonString "content"]) ].

Definition schema_Session : Json :=
  JsonObject
    [ ("type", JsonString "object");
      ("properties", JsonObject
        [ ("id", JsonObject
            [ ("type", JsonString "string");
              ("format", JsonString "uuid");
              ("description", JsonString "Session identifier") ]);
          ("user_id", JsonObject
            [ ("type", JsonString "string");
              ("format", JsonString "uuid");
              ("description", JsonString "User reference") ]);
          ("token", JsonObject
            [ ("type", JsonString "string");
              ("description", JsonString "Session token") ]);
          ("expires_at", JsonObject [("type", JsonString "string"); ("format", JsonString "date-time")]);
          ("created_at", JsonObject [("type", JsonString "string"); ("format", JsonString "date-time")]);
          ("ip_address", JsonObject [("type", JsonString "string"); ("description", JsonString "Client IP")]) ]);
      ("required", JsonArray [JsonString "id"; JsonString "user_id"; JsonString "token"; JsonString "expires_at"]) ].

Definition schema_Task : Json :=
  JsonObject
    [ ("type", JsonString "object");
      ("properties", JsonObject
        [ ("id", JsonObject
            [ ("type", JsonString "string");
              ("format", JsonString "uuid");
              ("description", JsonString "Task identifier") ]);
          ("title", JsonObject [("type", JsonString "string"); ("description", JsonString "Task title")]);
          ("description", JsonObject
            [ ("type", JsonString "string");
              ("description", JsonString "Task description") ]);
          ("assignee_id", JsonObject
            [ ("type", JsonString "string");
              ("format", JsonString "uuid");
              ("description", JsonString "Assignee reference") ]);
          ("status", JsonObject
            [ ("type", JsonString "string");
              ("enum", JsonArray [JsonString "pending"; JsonString "in_progress"; JsonString "review"; JsonString "completed"]) ]);
          ("priority", JsonObject
            [ ("type", JsonString "string");
              ("enum", JsonArray [JsonString "low"; JsonString "medium"; JsonString "high"]) ]);
          ("due_date", JsonObject [("type", JsonString "string"); ("format", JsonString "date")]) ]);
      ("required", JsonArray [JsonString "id"; JsonString "title"; JsonString "status"]) ].

Definition schema_Record : Json :=
  JsonObject
    [ ("type", JsonString "object");
      ("properties", JsonObject
        [ ("id", JsonObject
            [ ("type", JsonString "string");
              ("format", JsonString "uuid");
              ("description", JsonString "Record identifier") ]);
          ("type", JsonObject [("type", JsonString "string"); ("description", JsonString "Record type")]);
          ("data", JsonObject [("type", JsonString "object"); ("description", JsonString "Record data")]);
          ("status", JsonObject
            [ ("type", JsonString "string");
              ("description", JsonString "Record status") ]);
          ("created_at", JsonObject [("type", JsonString "string"); ("format", JsonString "date-time")]);
          ("updated_at", JsonObject [("type", JsonString "string"); ("format", JsonString "date-time")]) ]);
      ("required", JsonArray [JsonString "id"; JsonString "type"; JsonString "data"]) ].

Definition schemas : gmap string Json :=
  list_to_map
    [ ("User", schema_User);
      ("Product", schema_Product);
      ("Order", schema_Order);
      ("Cart", schema_Cart);
      ("Payment", schema_Payment);
      ("Ticket", schema_Ticket);
      ("Booking", schema_Booking);
      ("Content", schema_Content);
      ("Notification", schema_Notification);
      ("Session", schema_Session);
      ("Task", schema_Task);
      ("Record", schema_Record) ].

(** [schemas[entity] || schemas.Record] *)
Definition generateEntitySchema (entity : string) : JsValue Json :=
  JsObject.getOr schemas entity schema_Record.

Record Relationship : Type := mkRelationship {
  rel_from : string;
  rel_to : string;
  rel_type : string;
  rel_description : string
}.

Definition relationshipMap : gmap string Relationship :=
  list_to_map
    [ ("User-Order", mkRelationship "User" "Order" "one-to-many" "User places orders");
      ("User-Cart", mkRelationship "User" "Cart" "one-to-one" "User has a cart");
      ("User-Ticket", mkRelationship "User" "Ticket" "one-to-many" "User creates tickets");
      ("User-Booking", mkRelationship "User" "Booking" "one-to-many" "User makes bookings");
      ("User-Content", mkRelationship "User" "Content" "one-to-many" "User creates content");
      ("User-Session", mkRelationship "User" "Session" "one-to-many" "User has sessions");
      ("User-Notification", mkRelationship "User" "Notification" "one-to-many" "User receives notifications");
      ("Order-Payment", mkRelationship "Order" "Payment" "one-to-one" "Order has payment");
      ("Order-Product", mkRelationship "Order" "Product" "many-to-many" "Order contains products");
      ("Cart-Product", mkRelationship "Cart" "Product" "many-to-many" "Cart contains products") ].

Record DataModel : Type := mkDataModel {
  dm_schema : string;
  dm_title : string;
  dm_description : string;
  dm_entities : list (string * JsValue Json);
  dm_relationships : list (JsValue Relationship)
}.

(** [object[key] = value] on an object held in insertion order. *)
Fixpoint setProperty {A : Type} (object : list (string * A)) (key : string) (value : A)
    : list (string * A) :=
  match object with
  | [] => [(key, value)]
  | (k, v) :: rest =>
      if bool_decide (k = key) then (k, value) :: rest
      else (k, v) :: setProperty rest key value
  end.

(** The body of the inner relationship loop at indices [i] and [j]: the
    key of the pair is probed in both orders, and the first hit is pushed.
    The loop bounds keep both indices inside the array. *)
Definition relate (entityArray : list string) (relationships : list (JsValue Relationship))
    (i j : nat) : list (JsValue Relationship) :=
  match entityArray !! i, entityArray !! j with
  | Some a, Some b =>
      let key1 := a ++ "-" ++ b in
      let key2 := b ++ "-" ++ a in
      match JsObject.get relationshipMap key1 with
      | Some r => relationships ++ [r]
      | None =>
          match JsObject.get relationshipMap key2 with
          | Some r => relationships ++ [r]
          | None => relationships
          end
      end
  | _, _ => relationships
  end.

(** [for (i = 0; i < n; i++) for (j = i + 1; j < n; j++)] *)
Definition relateAll (entityArray : list string) : list (JsValue Relationship) :=
  let n := length entityArray in
  fold_left
    (fun relationships i =>
       fold_left (fun relationships j => relate entityArray relationships i j)
         (seq (i + 1) (n - (i + 1))) relationships)
    (seq 0 n) [].

Definition generateDataModel (workflow : list WorkflowStep) (description : string) : DataModel :=
  let entities := extractEntities workflow in
  let entityArray := entities in
  {| dm_schema := "http://json-schema.org/draft-07/schema#";
     dm_title := "Scenario Data Model";
     dm_description :=
       "Data model generated for: " ++ JsString.take 100 description ++ "...";
     dm_entities :=
       fold_left (fun object entity => setProperty object entity (generateEntitySchema entity))
         entityArray [];
     dm_relationships := relateAll entityArray |}.

End SchemaGenerator.

Export SchemaGenerator.

(** ** mockAI.js and workflowService.js: the asynchronous pipeline *)

Module WorkflowService.

(** What one run reads from outside the program: the draw of
    [Math.random()] behind the simulated delay, and the clock behind
    [new Date().toISOString()]. *)
Record World : Type := mkWorld {
  world_random : Q;
  world_now : string
}.

(** A settled promise: how long the awaited timers took, in milliseconds,
    and what the promise settled with. *)
Record Settled (A : Type) : Type := mkSettled {
  elapsed : Q;
  outcome : A
}.
Arguments mkSettled {A} elapsed outcome.
Arguments elapsed {A} s.
Arguments outcome {A} s.

Record Metadata : Type := mkMetadata {
  detectedType : string;
  generatedAt : string;
  aiProvider : string
}.

Record AiResponse : Type := mkAiResponse {
  ai_workflow : JsValue (list WorkflowStep);
  ai_summary : JsValue string;
  ai_metadata : Metadata
}.

Definition mockAIGenerate (world : World) (description : string) : Settled AiResponse :=
  let delay := (50 + world_random world * 100)%Q in
  let analysis := analyzeDescription description in
  let workflow := generateStepsForType (analysis_type analysis) description in
  let summary := generateSummary (analysis_type analysis) description in
  mkSettled delay
    {| ai_workflow := workflow;
       ai_summary := summary;
       ai_metadata :=
         {| detectedType := analysis_type analysis;
            generatedAt := world_now world;
            aiProvider := "mock" |} |}.

Record ScenarioResult : Type := mkScenarioResult {
  sr_workflow : list WorkflowStep;
  sr_mermaid_diagram : string;
  sr_data_model : DataModel;
  sr_summary : JsValue string
}.

(** How a call ends: with a value, or with an exception. *)
Inductive Completion (A : Type) : Type :=
| Returned (a : A)
| Thrown (error : string).
Arguments Returned {A} a.
Arguments Thrown {A} error.

(** Were [aiResponse.workflow] a built-in instead of an array,
    [generateDataModel] would call its missing [forEach] and the promise
    would reject with a [TypeError]. *)
Definition generateWorkflow (world : World) (description : string)
    : Settled (Completion ScenarioResult) :=
  let aiResponse := mockAIGenerate world description in
  mkSettled (elapsed aiResponse)
    match ai_workflow (outcome aiResponse) with
    | JsData workflow =>
        let mermaidDiagram := generateMermaidDiagram (Some workflow) in
        let dataModel := generateDataModel workflow description in
        Returned
          {| sr_workflow := workflow;
             sr_mermaid_diagram := mermaidDiagram;
             sr_data_model := dataModel;
             sr_summary := ai_summary (outcome aiResponse) |}
    | JsBuiltin _ => Thrown "TypeError"
    end.

End WorkflowService.

Export WorkflowService.

(** ** scenarioController.js *)

Module ScenarioController.

(** The [description] property of [req.body], the object [express.json()]
    parses the request into; [InUndefined] when the body has no such
    property. *)
Inductive JsInput : Type :=
| InUndefined
| InNull
| InBoolean (b : bool)
| InNumber (n : Z)
| InString (s : string)
| InArray
| InObject.

Record Request : Type := mkRequest {
  body_description : JsInput
}.

Inductive ResponseBody : Type :=
| ErrorBody (error message : string)
| SuccessBody (data : ScenarioResult).

Record Response : Type := mkResponse {
  status : nat;
  body : ResponseBody
}.

(** What handling a request did: the arguments of the calls made to
    [workflowService.generateWorkflow], in order, and the response sent. *)
Record Handled : Type := mkHandled {
  serviceCalls : list string;
  response : Response
}.

Definition invalidInput : Response :=
  mkResponse 400
    (ErrorBody "Invalid input" "Please provide a valid scenario description").

Definition tooShort : Response :=
  mkResponse 400
    (ErrorBody "Description too short"
       "Please provide a more detailed scenario description (at least 10 characters)").

Definition generationFailed : Response :=
  mkResponse 500
    (ErrorBody "Generation failed" "An error occurred while generating the scenario").

Definition generateScenario (world : World) (req : Request) : Handled :=
  match body_description req with
  | InString description =>
      if (String.length description =? 0)%nat then mkHandled [] invalidInput
      else if (String.length (JsString.trim description) <? 10)%nat then mkHandled [] tooShort
      else
        let argument := JsString.trim description in
        match outcome (generateWorkflow world argument) with
        | Returned result => mkHandled [argument] (mkResponse 200 (SuccessBody result))
        | Thrown _ => mkHandled [argument] generationFailed
        end
  | _ => mkHandled [] invalidInput
  end.

End ScenarioController.

Export ScenarioController.

(** ** ScenarioInput.tsx and api.ts: the form guard and the API client *)

Module ScenarioInput.

(** [handleSubmit]: the descriptions [onSubmit] is called with. The form
    submits the text as typed, untrimmed, when its trimmed length reaches
    ten. *)
Definition handleSubmit (description : string) : list string :=
  if (10 <=? String.length (JsString.trim description))%nat then [description] else [].

(** The [disabled] attribute of the submit button. *)
Definition submitDisabled (isLoading : bool) (description : string) : bool :=
  isLoading || (String.length (JsString.trim description) <? 10)%nat.

End ScenarioInput.

Module Api.

(** [generateScenario] of api.ts. [server] stands for the [fetch] of
    [POST /api/scenario] with the body [{ description }]; a response
    outside 200-299 is thrown as an [Error] carrying its message, or the
    stock text when the message is empty. *)
Definition generateScenario (server : Request -> Response) (description : string)
    : Completion ResponseBody :=
  let response := server (mkRequest (InString description)) in
  if ((200 <=? status response) && (status response <=? 299))%nat
  then Returned (body response)
  else
    match body response with
    | ErrorBody _ message =>
        Thrown (if (String.length message =? 0)%nat
                then "Failed to generate scenario" else message)
    | SuccessBody _ => Thrown "Failed to generate scenario"
    end.

End Api.

(** * Properties *)

(** ** Notions the statements use *)

(** Some keyword of the set occurs in the lower-cased description. *)
Definition matchesAny (description : string) (keywords : list string) : bool :=
  existsb (fun kw => JsString.includes (JsString.toLowerCase description) kw) keywords.

(** The [id]s of a step sequence are 1, 2, ..., its length, in order. *)
Definition idsCountFromOne (steps : list WorkflowStep) : Prop :=
  step_id <$> steps = N.of_nat <$> seq 1 (length steps).

(** What the step generator is expected to deliver. *)
Definition wellFormedTemplate (steps : list WorkflowStep) : Prop :=
  (7 <= length steps <= 10)%nat
  /\ NoDup (step_id <$> steps)
  /\ idsCountFromOne steps.

(** The keyword rules of [extractEntities] as a table: the keywords of
    each test, and the entity it adds. *)
Definition entityRules : list (list string * string) :=
  [ (["user"; "credential"], "User");
    (["product"; "item"], "Product");
    (["order"; "purchase"], "Order");
    (["cart"], "Cart");
    (["payment"], "Payment");
    (["ticket"; "issue"], "Ticket");
    (["booking"; "reservation"; "appointment"], "Booking");
    (["content"; "post"; "article"], "Content");
    (["notification"; "alert"], "Notification");
    (["session"; "token"], "Session");
    (["task"; "workflow"], "Task") ].

(** A rule fires on a step when one of its keywords occurs in the text of
    the step. *)
Definition ruleFires (step : WorkflowStep) (rule : list string * string) : bool :=
  existsb (fun kw => JsString.includes (stepText step) kw) rule.1.

Definition anyRuleFires (step : WorkflowStep) : bool :=
  existsb (ruleFires step) entityRules.

(** One rule applied to the set. *)
Definition applyRule (step : WorkflowStep) (entities : list string)
    (rule : list string * string) : list string :=
  addWhen (ruleFires step rule) rule.2 entities.

(** Two inputs the statements below are tried on: the fourth step of the
    authentication template, and a workflow none of whose words is a
    keyword. *)
Definition verifyPassword : WorkflowStep :=
  mkStep 4 "Verify Password" "Compare password hash" "system_check".

Definition idle : list WorkflowStep :=
  [mkStep 1 "Wait" "Do nothing at all" "trigger"].

(** The edges a step is expected to get: a branch step a Yes edge to its
    successor and, when there is a step after that, a dashed No edge to
    it; any other step one plain edge to its successor; the last step
    none. *)
Definition edgesOf (workflow : list WorkflowStep) (i : nat) : list string :=
  match workflow !! i, workflow !! (i + 1)%nat with
  | Some current, Some next =>
      if isBranch current then
        yesEdge current next
          :: match workflow !! (i + 2)%nat with
             | Some skipped => [noEdge current skipped]
             | None => []
             end
      else [plainEdge current next]
  | _, _ => []
  end.

(** The lines of a text, the inverse of [join] with a newline. *)
Fixpoint splitLines (text : string) : list string :=
  match text with
  | EmptyString => [EmptyString]
  | String c rest =>
      if bool_decide (c = ascii_of_N 10) then EmptyString :: splitLines rest
      else match splitLines rest with
           | [] => [String c EmptyString]
           | line :: lines => String c line :: lines
           end
  end.

(** A line that draws an edge carries one of the two arrows. *)
Definition drawsEdge (line : string) : bool :=
  JsString.includes line "-->" || JsString.includes line "-.->".

(** The two labels of the examples: [test "quoted"] and [test [brackets]]. *)
Definition quotedLabel : string :=
  "test " ++ String JsString.dquote ("quoted" ++ String JsString.dquote EmptyString).

Definition bracketsLabel : string := "test [brackets]".

(** The text has neither [<] nor [>]. *)
Definition arrowFree (text : string) : Prop :=
  JsString.includes text ">" = false /\ JsString.includes text "<" = false.

(** The closed set of entity names. *)
Definition entityNames : list string :=
  [ "User"; "Product"; "Order"; "Cart"; "Payment"; "Ticket"; "Booking";
    "Content"; "Notification"; "Session"; "Task"; "Record" ].

(** The pairs of a sequence, each element with each later one, in the
    order the nested loops visit them; an unordered pair of distinct
    elements occurs once. *)
Fixpoint orderedPairs (entities : list string) : list (string * string) :=
  match entities with
  | [] => []
  | a :: rest => (pair a <$> rest) ++ orderedPairs rest
  end.

(** The table probed with the key of a pair, [a-b] first and [b-a] next;
    the first hit counts. *)
Definition probe (a b : string) : option (JsValue Relationship) :=
  match JsObject.get relationshipMap (a ++ "-" ++ b) with
  | Some r => Some r
  | None => JsObject.get relationshipMap (b ++ "-" ++ a)
  end.

Definition probePair (pair : string * string) : option (JsValue Relationship) :=
  probe pair.1 pair.2.

#[global] Instance Relationship_eq_dec : EqDecision Relationship.
Proof. solve_decision. Defined.

(** The relationship is an entry of the table and links [a] and [b], in
    one direction or the other. *)
Definition tableEntryBetween (a b : string) (r : JsValue Relationship) : Prop :=
  match r with
  | JsData rel =>
      relationshipMap !! (rel_from rel ++ "-" ++ rel_to rel) = Some rel
      /\ ((rel_from rel = a /\ rel_to rel = b) \/ (rel_from rel = b /\ rel_to rel = a))
  | JsBuiltin _ => False
  end.

#[global] Instance tableEntryBetween_dec (a b : string) (r : JsValue Relationship) :
  Decision (tableEntryBetween a b r).
Proof. destruct r; simpl; apply _. Defined.

(** The relationship links [a] and [b]. *)
Definition links (a b : string) (r : JsValue Relationship) : bool :=
  match r with
  | JsData rel =>
      bool_decide ((rel_from rel = a /\ rel_to rel = b) \/ (rel_from rel = b /\ rel_to rel = a))
  | JsBuiltin _ => false
  end.

(** The pair is [a] and [b], in one order or the other. *)
Definition isPair (a b : string) (pair : string * string) : bool :=
  bool_decide (pair = (a, b) \/ pair = (b, a)).

(** A description the controller is expected to turn away: missing, not
    a string, or with fewer than ten characters once trimmed. *)
Definition unacceptable (input : JsInput) : Prop :=
  match input with
  | InString description => (String.length (JsString.trim description) < 10)%nat
  | _ => True
  end.

(** The response is a validation failure: status 400 with an error name
    and a message for the caller. *)
Definition validationFailure (r : Response) : Prop :=
  status r = 400%nat
  /\ exists error message,
       body r = ErrorBody error message /\ error <> EmptyString /\ message <> EmptyString.

(** The request of the end-to-end example. *)
Definition checkoutRequest : string :=
  "Build an e-commerce checkout flow where users can browse products, add items to cart, and complete purchase with payment".

(** ** Further notions *)

(** The position of a name in a list, the length of the list when it is
    absent. *)
Fixpoint indexOf (x : string) (names : list string) : nat :=
  match names with
  | [] => 0
  | y :: rest => if bool_decide (x = y) then 0 else S (indexOf x rest)
  end.

(** The priority of a category: 0 for ecommerce up to 7 for notification,
    and 8 for general. *)
Definition priority (type : string) : nat := indexOf type types.*1.

(** The nine categories. *)
Definition categories : list string := types.*1 ++ ["general"].

(** How often a character occurs in a text. *)
Fixpoint countChar (c : ascii) (text : string) : nat :=
  match text with
  | EmptyString => 0
  | String d rest => (if bool_decide (d = c) then 1 else 0) + countChar c rest
  end.

(** The characters [escapeLabel] removes or replaces for good: the double
    quote and the six brackets. *)
Definition structural : list ascii :=
  [ JsString.dquote; "["; "]"; "{"; "}"; "("; ")" ]%char.

Definition brackets : list ascii := [ "["; "]"; "{"; "}"; "("; ")" ]%char.



(** How many of the characters of a list occur in a text, with
    multiplicity. *)
Definition countChars (chars : list ascii) (text : string) : nat :=
  sum_list_with (fun c => countChar c text) chars.

(** Reading a schema: the value of a field of an object, the keys of an
    object, and the strings of an array. *)
Definition jsonField (key : string) (value : Json) : option Json :=
  match value with
  | JsonObject fields => snd <$> List.find (fun field => String.eqb field.1 key) fields
  | _ => None
  end.

Definition jsonKeys (value : option Json) : list string :=
  match value with
  | Some (JsonObject fields) => fields.*1
  | _ => []
  end.

Definition jsonStrings (value : option Json) : list string :=
  match value with
  | Some (JsonArray items) =>
      omap (fun item => match item with JsonString s => Some s | _ => None end) items
  | _ => []
  end.

#[global] Instance Json_string_eq_dec (value : option Json) (s : string) :
  Decision (value = Some (JsonString s)).
Proof.
  destruct value as [[s'| | | |]|]; try (right; discriminate).
  destruct (decide (s' = s)) as [-> | Hne]; [by left | right; congruence].
Defined.

(** A schema is well formed when it describes an object, declares each
    property once, requires only properties it declares, and requires
    [id], a uuid string. *)
Definition schemaWellFormed (schema : Json) : Prop :=
  jsonField "type" schema = Some (JsonString "object")
  /\ NoDup (jsonKeys (jsonField "properties" schema))
  /\ jsonStrings (jsonField "required" schema) ⊆ jsonKeys (jsonField "properties" schema)
  /\ "id" ∈ jsonStrings (jsonField "required" schema)
  /\ (jsonField "properties" schema ≫= jsonField "id") ≫= jsonField "format"
     = Some (JsonString "uuid").

(** ** Strings *)

Section StringFacts.

Import JsString.

Lemma startsWith_spec (s p : string) :
  startsWith s p = true <-> exists rest, s = p ++ rest.
Proof.
  revert s; induction p as [|b p IH]; intros s; simpl.
  - split; [intros _; by exists s | done].
  - destruct s as [|a s].
    + split; [done | by intros [rest ?]].
    + rewrite andb_true_iff, bool_decide_eq_true, IH. split.
      * intros [-> [rest ->]]. by exists rest.
      * intros [rest [= -> ->]]. eauto.
Qed.

(** [includes] is the substring relation. *)
Lemma includes_spec (s kw : string) :
  includes s kw = true <-> exists before after, s = before ++ kw ++ after.
Proof.
  induction s as [|a s IH].
  - simpl. rewrite orb_false_r, startsWith_spec. split.
    + intros [rest ->]. by exists EmptyString, rest.
    + intros [[|??] [after H]]; [by exists after | done].
  - cbn [includes]. rewrite orb_true_iff, startsWith_spec, IH. split.
    + intros [[rest ->] | (before & after & ->)].
      * by exists EmptyString, rest.
      * by exists (String a before), after.
    + intros [[|c before] [after H]].
      * left. by exists after.
      * right. injection H as -> ->. by exists before, after.
Qed.

Lemma toLowerCase_app (s t : string) :
  toLowerCase (s ++ t) = toLowerCase s ++ toLowerCase t.
Proof. induction s as [|a s IH]; simpl; [done | by rewrite IH]. Qed.

(** A keyword already in lower case survives lower-casing of the text
    around it. *)
Lemma includes_toLowerCase (s kw : string) :
  toLowerCase kw = kw -> includes s kw = true -> includes (toLowerCase s) kw = true.
Proof.
  intros Hkw. rewrite !includes_spec. intros (before & after & ->).
  exists (toLowerCase before), (toLowerCase after).
  by rewrite !toLowerCase_app, Hkw.
Qed.

End StringFacts.

(** ** Classification *)

Section Classification.

Variable description : string.

Lemma detectType_first (earlier later : list (string * list string))
    (type : string) (keywords : list string) (fallback : string) :
  Forall (fun entry => matchesAny description entry.2 = false) earlier ->
  matchesAny description keywords = true ->
  detectType (earlier ++ (type, keywords) :: later)%list (JsString.toLowerCase description) fallback = type.
Proof.
  induction 1 as [|[t kws] earlier Hhd _ IH]; intros Hhit; simpl.
  - unfold matchesAny in Hhit. by rewrite Hhit.
  - unfold matchesAny in Hhd. simpl in Hhd. rewrite Hhd. by apply IH.
Qed.

Lemma detectType_none (entries : list (string * list string)) (fallback : string) :
  Forall (fun entry => matchesAny description entry.2 = false) entries ->
  detectType entries (JsString.toLowerCase description) fallback = fallback.
Proof.
  induction 1 as [|[t kws] entries Hhd _ IH]; simpl; [done|].
  unfold matchesAny in Hhd. simpl in Hhd. by rewrite Hhd.
Qed.

End Classification.

Lemma analysis_type_unfold (description : string) :
  analysis_type (analyzeDescription description)
    = detectType types (JsString.toLowerCase description) "general".
Proof. reflexivity. Qed.

(** C1. [analyzeDescription] lower-cases the description and walks the
    categories in the order ecommerce, auth, booking, support, content,
    workflow, data, notification; the first category one of whose keywords
    is a substring of the lower-cased text is returned. So a description
    with an ecommerce keyword (as written, or after lower-casing) is
    classified ecommerce, no category coming before it, and a description
    no keyword of which matches is classified general. *)
Theorem analyzeDescription_first_match (description : string) :
  analysis_description (analyzeDescription description)
    = JsString.toLowerCase description
  /\ types.*1 = [ "ecommerce"; "auth"; "booking"; "support"; "content";
                  "workflow"; "data"; "notification" ]
  /\ (forall earlier type keywords later,
        types = (earlier ++ (type, keywords) :: later)%list ->
        Forall (fun entry => matchesAny description entry.2 = false) earlier ->
        matchesAny description keywords = true ->
        analysis_type (analyzeDescription description) = type)
  /\ (forall keywords kw,
        types !! 0%nat = Some ("ecommerce", keywords) ->
        kw ∈ keywords ->
        JsString.includes description kw = true
          \/ JsString.includes (JsString.toLowerCase description) kw = true ->
        analysis_type (analyzeDescription description) = "ecommerce")
  /\ (Forall (fun entry => matchesAny description entry.2 = false) types ->
      analysis_type (analyzeDescription description) = "general").
Proof.
  split; [done|]. split; [done|]. split; [|split].
  - intros earlier type keywords later Htypes Hearlier Hhit.
    rewrite analysis_type_unfold, Htypes.
    by apply detectType_first.
  - intros keywords kw [= <-] Hkw Hin.
    assert (JsString.includes (JsString.toLowerCase description) kw = true) as Hlow.
    { destruct Hin as [Hraw | Hlow]; [|done].
      apply includes_toLowerCase; [|done].
      repeat (apply elem_of_cons in Hkw as [-> | Hkw]; [reflexivity|]).
      by apply elem_of_nil in Hkw. }
    rewrite analysis_type_unfold.
    apply (detectType_first description [] (tail types)); [constructor|].
    unfold matchesAny. apply existsb_exists. exists kw. split; [|done].
    by apply list_elem_of_In.
  - intros Hnone. rewrite analysis_type_unfold.
    by apply detectType_none.
Qed.

(** C1 at two descriptions: a checkout request, and one without keywords. *)
Lemma analyzeDescription_first_match_witness :
  analysis_type (analyzeDescription "Online STORE Checkout") = "ecommerce"
  /\ analysis_type (analyzeDescription "Reset my PASSWORD please") = "auth"
  /\ analysis_type (analyzeDescription "Say hello to the world") = "general".
Proof.
  split; [|split].
  - apply (proj1 (proj2 (proj2 (proj2
      (analyzeDescription_first_match "Online STORE Checkout")))))
      with (keywords := ["shop"; "cart"; "buy"; "purchase"; "order"; "payment";
                         "checkout"; "product"]) (kw := "checkout").
    + reflexivity.
    + apply (bool_decide_unpack _). vm_compute. reflexivity.
    + right. vm_compute. reflexivity.
  - apply (proj1 (proj2 (proj2
      (analyzeDescription_first_match "Reset my PASSWORD please"))))
      with (earlier := [("ecommerce", ["shop"; "cart"; "buy"; "purchase"; "order";
                                       "payment"; "checkout"; "product"])])
           (keywords := ["login"; "signup"; "register"; "password";
                         "authentication"; "user account"])
           (later := tail (tail types)).
    + reflexivity.
    + apply (bool_decide_unpack _). vm_compute. reflexivity.
    + vm_compute. reflexivity.
  - apply (proj2 (proj2 (proj2 (proj2
      (analyzeDescription_first_match "Say hello to the world"))))).
    apply (bool_decide_unpack _). vm_compute. reflexivity.
Defined.

(** ** Step templates *)

Section Templates.

Lemma wellFormedTemplate_table (type : string) (steps : list WorkflowStep) :
  templates !! type = Some steps -> wellFormedTemplate steps.
Proof.
  intros Hlookup. apply elem_of_list_to_map_2 in Hlookup.
  repeat (apply elem_of_cons in Hlookup as [[= -> ->] | Hlookup];
          [ split; [simpl; lia | split; [apply (bool_decide_unpack _); by vm_compute | reflexivity]] |]).
  by apply elem_of_nil in Hlookup.
Qed.

Lemma wellFormedTemplate_general : wellFormedTemplate template_general.
Proof. by apply (wellFormedTemplate_table "general"). Qed.

(** On every name that is not inherited from [Object.prototype] the
    generator returns a well-formed template: the one of the table when
    the name is a key of it, the general one otherwise. *)
Lemma generateStepsForType_well_formed (type description : string) :
  type ∉ JsObject.prototypeKeys ->
  exists steps,
    generateStepsForType type description = JsData steps
    /\ wellFormedTemplate steps
    /\ (templates !! type = None -> steps = template_general).
Proof.
  intros Hown. unfold generateStepsForType, JsObject.getOr, JsObject.get.
  destruct (templates !! type) as [steps|] eqn:Hlookup.
  - exists steps. split; [done|]. split; [|done].
    by apply (wellFormedTemplate_table type).
  - rewrite bool_decide_eq_false_2 by done. exists template_general.
    split; [done|]. split; [|done]. apply wellFormedTemplate_general.
Qed.

(** The nine category names are keys of the table, each with its own
    template. *)
Lemma generateStepsForType_categories (description : string) :
  Forall (fun type => exists steps,
            templates !! type = Some steps
            /\ generateStepsForType type description = JsData steps)
    ("general" :: types.*1).
Proof.
  repeat (apply Forall_cons; split; [eexists; split; by vm_compute|]).
  apply Forall_nil_2.
Qed.

End Templates.

(** C2, where it fails. A property read on the template table also finds
    what object literals inherit: for the name "constructor" (and every
    other name of [Object.prototype]), which is no key of the table, the
    generator returns the inherited built-in and not the general template,
    so the caller gets no step sequence at all. *)
Theorem generateStepsForType_inherited_name (description : string) :
  templates !! "constructor" = None
  /\ generateStepsForType "constructor" description = JsBuiltin "constructor"
  /\ generateStepsForType "constructor" description <> JsData template_general
  /\ Forall (fun type => templates !! type = None
                         /\ generateStepsForType type description = JsBuiltin type)
       JsObject.prototypeKeys.
Proof.
  split; [by vm_compute|]. split; [by vm_compute|]. split; [by vm_compute|].
  repeat (apply Forall_cons; split; [split; by vm_compute|]).
  apply Forall_nil_2.
Qed.

(** ** Entity inference *)

Section Entities.

Lemma elem_of_setAdd (entities : list string) (entity x : string) :
  x ∈ setAdd entities entity <-> x ∈ entities \/ x = entity.
Proof.
  unfold setAdd. case_bool_decide as Hin.
  - split; [by left | by intros [? | ->]].
  - rewrite elem_of_app, list_elem_of_singleton. done.
Qed.

Lemma elem_of_addWhen (cond : bool) (entities : list string) (entity x : string) :
  x ∈ addWhen cond entity entities <-> x ∈ entities \/ (cond = true /\ x = entity).
Proof.
  destruct cond; simpl.
  - rewrite elem_of_setAdd. split; (intros [? | ?]; [by left | right]); [done | tauto].
  - split; [by left | by intros [? | [? _]]].
Qed.

Lemma NoDup_setAdd (entities : list string) (entity : string) :
  NoDup entities -> NoDup (setAdd entities entity).
Proof.
  intros Hnd. unfold setAdd. case_bool_decide as Hin; [done|].
  apply NoDup_app. split; [done|]. split; [|apply NoDup_singleton].
  intros x Hx ->%list_elem_of_singleton. done.
Qed.

Lemma NoDup_addWhen (cond : bool) (entities : list string) (entity : string) :
  NoDup entities -> NoDup (addWhen cond entity entities).
Proof. destruct cond; simpl; [apply NoDup_setAdd | done]. Qed.

(** The eleven tests of the callback are the rules of the table, applied
    in order. *)
Lemma scanStep_rules (entities : list string) (step : WorkflowStep) :
  scanStep entities step = fold_left (applyRule step) entityRules entities.
Proof.
  unfold scanStep, entityRules, applyRule, ruleFires. simpl.
  by rewrite ?orb_false_r, ?orb_assoc.
Qed.

Lemma elem_of_applyRules (step : WorkflowStep) (rules : list (list string * string))
    (entities : list string) (x : string) :
  x ∈ fold_left (applyRule step) rules entities
  <-> x ∈ entities \/ exists rule, rule ∈ rules /\ ruleFires step rule = true /\ x = rule.2.
Proof.
  revert entities; induction rules as [|rule rules IH]; intros entities; simpl.
  - split; [by left | intros [? | (? & []%elem_of_nil & _)]; done].
  - rewrite IH. unfold applyRule. rewrite elem_of_addWhen. split.
    + intros [[? | [? ->]] | (r & ? & ? & ->)]; [by left | right..].
      * exists rule. split; [by left | done].
      * exists r. split; [by right | done].
    + intros [? | (r & [-> | ?]%elem_of_cons & ? & ->)]; [by left; left | |].
      * by left; right.
      * right. by exists r.
Qed.

Lemma elem_of_scanStep (entities : list string) (step : WorkflowStep) (x : string) :
  x ∈ scanStep entities step
  <-> x ∈ entities
      \/ exists rule, rule ∈ entityRules /\ ruleFires step rule = true /\ x = rule.2.
Proof. rewrite scanStep_rules. apply elem_of_applyRules. Qed.

Lemma elem_of_scan (workflow : list WorkflowStep) (entities : list string) (x : string) :
  x ∈ fold_left scanStep workflow entities
  <-> x ∈ entities
      \/ exists step rule,
           step ∈ workflow /\ rule ∈ entityRules
           /\ ruleFires step rule = true /\ x = rule.2.
Proof.
  revert entities; induction workflow as [|step workflow IH]; intros entities; simpl.
  - split; [by left | intros [? | (? & ? & []%elem_of_nil & _)]; done].
  - rewrite IH, elem_of_scanStep. split.
    + intros [[? | (r & ? & ? & ->)] | (s & r & ? & ? & ? & ->)]; [by left | right..].
      * exists step, r. split; [by left | done].
      * exists s, r. split; [by right | done].
    + intros [? | (s & r & [-> | ?]%elem_of_cons & ? & ? & ->)]; [by left; left | |].
      * left; right. by exists r.
      * right. by exists s, r.
Qed.

Lemma NoDup_scanStep (entities : list string) (step : WorkflowStep) :
  NoDup entities -> NoDup (scanStep entities step).
Proof. intros Hnd. unfold scanStep. by repeat apply NoDup_addWhen. Qed.

Lemma NoDup_scan (workflow : list WorkflowStep) (entities : list string) :
  NoDup entities -> NoDup (fold_left scanStep workflow entities).
Proof.
  revert entities; induction workflow as [|step workflow IH]; intros entities Hnd; simpl;
    [done | by apply IH, NoDup_scanStep].
Qed.

(** The two ways [extractEntities] ends. *)
Lemma extractEntities_cases (workflow : list WorkflowStep) :
  (fold_left scanStep workflow [] = [] /\ extractEntities workflow = ["Record"])
  \/ (fold_left scanStep workflow [] <> []
      /\ extractEntities workflow = fold_left scanStep workflow []).
Proof.
  unfold extractEntities. destruct (fold_left scanStep workflow []) as [|e es].
  - by left.
  - by right.
Qed.

Lemma NoDup_extractEntities (workflow : list WorkflowStep) :
  NoDup (extractEntities workflow).
Proof.
  destruct (extractEntities_cases workflow) as [[_ ->] | [_ ->]].
  - apply NoDup_singleton.
  - apply NoDup_scan, NoDup_nil_2.
Qed.

(** A rule that fires on a step puts its entity into the result. *)
Lemma extractEntities_fired (workflow : list WorkflowStep) (step : WorkflowStep)
    (rule : list string * string) :
  step ∈ workflow -> rule ∈ entityRules -> ruleFires step rule = true ->
  rule.2 ∈ extractEntities workflow.
Proof.
  intros Hstep Hrule Hfires.
  assert (rule.2 ∈ fold_left scanStep workflow []) as Hin.
  { apply elem_of_scan. right. by exists step, rule. }
  destruct (extractEntities_cases workflow) as [[Hnil _] | [_ ->]]; [|done].
  rewrite Hnil in Hin. by apply elem_of_nil in Hin.
Qed.

Lemma extractEntities_nonempty (workflow : list WorkflowStep) :
  extractEntities workflow <> [].
Proof. by destruct (extractEntities_cases workflow) as [[_ ->] | [? ->]]. Qed.

(** When no rule fires on any step the result is the fallback alone. *)
Lemma extractEntities_none_fired (workflow : list WorkflowStep) :
  Forall (fun step => anyRuleFires step = false) workflow ->
  extractEntities workflow = ["Record"].
Proof.
  intros Hnone.
  destruct (extractEntities_cases workflow) as [[_ ->] | [Hne _]]; [done|].
  destruct (fold_left scanStep workflow []) as [|x xs] eqn:Hfold; [done|].
  assert (x ∈ fold_left scanStep workflow []) as Hx by (rewrite Hfold; by left).
  apply elem_of_scan in Hx as [[]%elem_of_nil | (step & rule & Hstep & Hrule & Hfires & _)].
  rewrite Forall_forall in Hnone. specialize (Hnone step Hstep).
  unfold anyRuleFires in Hnone.
  assert (existsb (ruleFires step) entityRules = true) as Hany.
  { apply existsb_exists. exists rule. split; [by apply list_elem_of_In | done]. }
  congruence.
Qed.

(** No rule of the table adds the fallback entity. *)
Lemma Record_not_a_rule (rule : list string * string) :
  rule ∈ entityRules -> rule.2 <> "Record".
Proof.
  intros Hrule.
  repeat (apply elem_of_cons in Hrule as [-> | Hrule]; [done|]).
  by apply elem_of_nil in Hrule.
Qed.

End Entities.

(** C3, as the code has it. The text of a step is its name, a space and
    its description, lower-cased. Whenever the text of some step contains
    "user" or "credential" the result includes User (the word "password"
    is no keyword of any rule); whenever it contains "product" the result
    includes Product; and the result is never empty: when no rule fired it
    is the single fallback entity Record. *)
Theorem extractEntities_keywords (workflow : list WorkflowStep) :
  (forall step, step ∈ workflow ->
     JsString.includes (stepText step) "user" = true
       \/ JsString.includes (stepText step) "credential" = true ->
     "User" ∈ extractEntities workflow)
  /\ (forall step, step ∈ workflow ->
        JsString.includes (stepText step) "product" = true ->
        "Product" ∈ extractEntities workflow)
  /\ extractEntities workflow <> []
  /\ (Forall (fun step => anyRuleFires step = false) workflow ->
      extractEntities workflow = ["Record"]).
Proof.
  split; [|split; [|split]].
  - intros step Hstep Hkw.
    apply (extractEntities_fired workflow step (["user"; "credential"], "User"));
      [done | by left |].
    unfold ruleFires; simpl. destruct Hkw as [-> | ->]; by rewrite ?orb_true_r.
  - intros step Hstep Hkw.
    apply (extractEntities_fired workflow step (["product"; "item"], "Product"));
      [done | by right; left |].
    unfold ruleFires; simpl. by rewrite Hkw.
  - apply extractEntities_nonempty.
  - apply extractEntities_none_fired.
Qed.

(** C3 at the first two steps of the authentication template and on a
    step without keywords. *)
Lemma extractEntities_keywords_witness :
  "User" ∈ extractEntities (take 2 template_auth)
  /\ "Product" ∈ extractEntities template_ecommerce
  /\ extractEntities idle = ["Record"].
Proof.
  split; [|split].
  - apply (proj1 (extractEntities_keywords (take 2 template_auth))
             (mkStep 1 "Enter Credentials" "User enters username/email and password"
                "user_input")).
    + apply (bool_decide_unpack _). vm_compute. reflexivity.
    + left. vm_compute. reflexivity.
  - apply (proj1 (proj2 (extractEntities_keywords template_ecommerce))
             (mkStep 1 "Browse Products" "User browses available products" "user_action")).
    + apply (bool_decide_unpack _). vm_compute. reflexivity.
    + vm_compute. reflexivity.
  - apply (proj2 (proj2 (proj2
             (extractEntities_keywords idle)))).
    apply (bool_decide_unpack _). vm_compute. reflexivity.
Defined.

(** C3 as stated fails: the fourth step of the authentication template
    reads "Verify Password" / "Compare password hash"; its text contains
    "password", and the entities inferred from it are Record alone. *)
Lemma extractEntities_password_counterexample :
  verifyPassword ∈ template_auth
  /\ JsString.includes (stepText verifyPassword) "password" = true
  /\ extractEntities [verifyPassword] = ["Record"]
  /\ "User" ∉ extractEntities [verifyPassword].
Proof.
  split; [apply (bool_decide_unpack _); by vm_compute|].
  split; [by vm_compute|]. split; [by vm_compute|].
  apply (bool_decide_unpack _). by vm_compute.
Qed.

(** C10. Record is in the result exactly when no rule fired on any step,
    and then it is the only entity of the result. *)
Theorem extractEntities_Record_exclusive (workflow : list WorkflowStep) :
  ("Record" ∈ extractEntities workflow
     <-> Forall (fun step => anyRuleFires step = false) workflow)
  /\ ("Record" ∈ extractEntities workflow -> extractEntities workflow = ["Record"]).
Proof.
  assert ("Record" ∈ extractEntities workflow ->
          Forall (fun step => anyRuleFires step = false) workflow) as Hforward.
  { intros Hrec.
    destruct (extractEntities_cases workflow) as [[Hnil _] | [_ Heq]].
    - apply Forall_forall. intros step Hstep.
      destruct (anyRuleFires step) eqn:Hany; [|done].
      apply existsb_exists in Hany as (rule & Hrule%list_elem_of_In & Hfires).
      assert (rule.2 ∈ fold_left scanStep workflow []) as Hin.
      { apply elem_of_scan. right. by exists step, rule. }
      rewrite Hnil in Hin. by apply elem_of_nil in Hin.
    - rewrite Heq in Hrec.
      apply elem_of_scan in Hrec as [[]%elem_of_nil | (step & rule & _ & Hrule & _ & Heq')].
      by destruct (Record_not_a_rule rule Hrule). }
  pose proof (extractEntities_none_fired workflow) as Hbackward.
  split; [split; [done|] |].
  - intros Hnone. rewrite (Hbackward Hnone). by left.
  - intros Hrec. by apply Hbackward, Hforward.
Qed.

(** C10 on a step no keyword occurs in, and on the general template,
    where rules fire. *)
Lemma extractEntities_Record_exclusive_witness :
  "Record" ∈ extractEntities idle
  /\ extractEntities idle = ["Record"]
  /\ ~ Forall (fun step => anyRuleFires step = false) template_general.
Proof.
  assert ("Record" ∈ extractEntities idle) as Hrec.
  { apply (proj1 (extractEntities_Record_exclusive idle)).
    apply (bool_decide_unpack _). vm_compute. reflexivity. }
  split; [exact Hrec|]. split.
  - exact (proj2 (extractEntities_Record_exclusive idle) Hrec).
  - intros Hnone.
    apply (proj1 (extractEntities_Record_exclusive template_general)) in Hnone.
    revert Hnone. apply (bool_decide_eq_false_1 _). vm_compute. reflexivity.
Defined.

(** ** Diagram synthesis *)

Section Diagram.

Lemma fold_left_push {A : Type} (f : A -> string) (items : list A) (lines : list string) :
  fold_left (fun lines item => push lines (f item)) items lines
  = (lines ++ (f <$> items))%list.
Proof.
  revert lines; induction items as [|item items IH]; intros lines; simpl.
  - by rewrite app_nil_r.
  - rewrite IH. unfold push. by rewrite <- app_assoc.
Qed.

(** One turn of the connection loop appends the edges of its step. *)
Lemma connect_edgesOf (workflow : list WorkflowStep) (lines : list string) (i : nat) :
  connect workflow lines i = (lines ++ edgesOf workflow i)%list.
Proof.
  unfold connect, edgesOf, push.
  destruct (workflow !! i) as [current|]; [|by rewrite app_nil_r].
  destruct (workflow !! (i + 1)%nat) as [next|]; [|by rewrite app_nil_r].
  destruct (isBranch current); [|done].
  destruct (workflow !! (i + 2)%nat) as [skipped|] eqn:Hskip.
  - apply lookup_lt_Some in Hskip. apply Nat.ltb_lt in Hskip. rewrite Hskip.
    by rewrite <- app_assoc.
  - by destruct (i + 2 <? length workflow)%nat.
Qed.

Lemma connections_edgesOf (workflow : list WorkflowStep) (lines : list string) :
  connections workflow lines
  = (lines ++ flat_map (edgesOf workflow) (seq 0 (length workflow - 1)))%list.
Proof.
  unfold connections. generalize (seq 0 (length workflow - 1)) as indices.
  intros indices; revert lines; induction indices as [|i indices IH]; intros lines; simpl.
  - by rewrite app_nil_r.
  - by rewrite IH, connect_edgesOf, <- app_assoc.
Qed.

(** The sections of the diagram of a workflow, in order. *)
Lemma diagramLines_sections (workflow : list WorkflowStep) :
  diagramLines workflow
  = (preamble ++ ["  %% Nodes"] ++ (nodeLine <$> workflow)
     ++ [EmptyString; "  %% Connections"]
     ++ flat_map (edgesOf workflow) (seq 0 (length workflow - 1))
     ++ [EmptyString; "  %% Apply styles"]
     ++ (styleLine <$> workflow))%list.
Proof.
  unfold diagramLines.
  rewrite !fold_left_push, connections_edgesOf. unfold push.
  by rewrite <- !app_assoc.
Qed.



Lemma includes_app_r (before text kw : string) :
  JsString.includes text kw = true -> JsString.includes (before ++ text) kw = true.
Proof.
  intros Htext; induction before as [|c before IH]; simpl; [done|].
  rewrite IH. apply orb_true_r.
Qed.

End Diagram.



(** C8. For a missing or empty step sequence the generator returns, with
    no failure, the two-line diagram made of the header and the single
    placeholder node "No workflow steps"; none of its lines draws an edge,
    whereas every edge line the generator can emit does. *)
Theorem generateMermaidDiagram_empty :
  generateMermaidDiagram None = emptyDiagram
  /\ generateMermaidDiagram (Some []) = emptyDiagram
  /\ splitLines emptyDiagram = ["graph TD"; "  empty[No workflow steps]"]
  /\ Forall (fun line => drawsEdge line = false) (splitLines emptyDiagram)
  /\ (forall current next : WorkflowStep,
        drawsEdge (yesEdge current next) = true
        /\ drawsEdge (noEdge current next) = true
        /\ drawsEdge (plainEdge current next) = true).
Proof.
  split; [done|]. split; [done|]. split; [by vm_compute|].
  split; [apply (bool_decide_unpack _); by vm_compute|].
  intros current next. unfold drawsEdge, yesEdge, noEdge, plainEdge.
  split; [|split]; apply orb_true_iff.
  - left. by do 2 apply includes_app_r.
  - right. by do 2 apply includes_app_r.
  - left. by do 2 apply includes_app_r.
Qed.

(** ** Label escaping *)

Section Escaping.

Lemma append_cons (c : ascii) (s t : string) : String c s ++ t = String c (s ++ t).
Proof. reflexivity. Qed.

Lemma append_assoc (s t u : string) : (s ++ t) ++ u = s ++ t ++ u.
Proof. induction s as [|c s IH]; [done | by rewrite !append_cons, IH]. Qed.

Lemma replaceEach_app (f : ascii -> string) (s t : string) :
  JsString.replaceEach f (s ++ t) = JsString.replaceEach f s ++ JsString.replaceEach f t.
Proof.
  induction s as [|c s IH]; simpl; [done|].
  rewrite IH. by rewrite append_assoc.
Qed.

(** Escaping works character by character. *)
Lemma escapeLabel_cons (c : ascii) (text : string) :
  escapeLabel (String c text) = escapeLabel (String c EmptyString) ++ escapeLabel text.
Proof.
  change (String c text) with (String c EmptyString ++ text).
  unfold escapeLabel. by rewrite !replaceEach_app.
Qed.

Lemma escapeLabel_app (s t : string) :
  escapeLabel (s ++ t) = escapeLabel s ++ escapeLabel t.
Proof. unfold escapeLabel. by rewrite !replaceEach_app. Qed.

(** On one character other than [<] and [>] a second pass changes
    nothing. *)
Lemma escapeLabel_char_stable (c : ascii) :
  c <> ">"%char -> c <> "<"%char ->
  escapeLabel (escapeLabel (String c EmptyString)) = escapeLabel (String c EmptyString).
Proof.
  destruct c as [[] [] [] [] [] [] [] []]; intros Hgt Hlt;
    first [reflexivity | by destruct Hgt | by destruct Hlt].
Qed.

Lemma arrowFree_cons (c : ascii) (text : string) :
  arrowFree (String c text) -> c <> ">"%char /\ c <> "<"%char /\ arrowFree text.
Proof.
  unfold arrowFree. cbn [JsString.includes JsString.startsWith].
  rewrite !andb_true_r, !orb_false_iff, !bool_decide_eq_false.
  intros [[? ?] [? ?]]. done.
Qed.

Lemma escapeLabel_stable (text : string) :
  arrowFree text -> escapeLabel (escapeLabel text) = escapeLabel text.
Proof.
  induction text as [|c text IH]; [done|].
  intros (Hgt & Hlt & Hfree)%arrowFree_cons.
  rewrite escapeLabel_cons, escapeLabel_app.
  by rewrite escapeLabel_char_stable, IH.
Qed.

End Escaping.

(** C5, as the code has it. The two examples hold: [test "quoted"] becomes
    [test 'quoted'] and [test [brackets]] becomes [test brackets]. Escaping
    twice equals escaping once on every label that has neither [<] nor
    [>]. *)
Theorem escapeLabel_examples_and_stability :
  escapeLabel quotedLabel = "test 'quoted'"
  /\ escapeLabel bracketsLabel = "test brackets"
  /\ (forall text, arrowFree text -> escapeLabel (escapeLabel text) = escapeLabel text).
Proof.
  split; [by vm_compute|]. split; [by vm_compute|]. apply escapeLabel_stable.
Qed.

(** C5 on the two example labels. *)
Lemma escapeLabel_examples_and_stability_witness :
  escapeLabel (escapeLabel quotedLabel) = "test 'quoted'"
  /\ escapeLabel (escapeLabel bracketsLabel) = "test brackets".
Proof.
  destruct escapeLabel_examples_and_stability as (Hquoted & Hbrackets & Hstable).
  split.
  - rewrite <- Hquoted. apply Hstable. split; vm_compute; reflexivity.
  - rewrite <- Hbrackets. apply Hstable. split; vm_compute; reflexivity.
Defined.

(** C5 as stated fails: escaping replaces [>] by [->], whose [>] the next
    pass replaces again. *)
Lemma escapeLabel_not_idempotent :
  escapeLabel ">" = "->"
  /\ escapeLabel (escapeLabel ">") = "-->"
  /\ escapeLabel (escapeLabel ">") <> escapeLabel ">".
Proof. split; [by vm_compute|]. split; by vm_compute. Qed.

(** ** The data model *)

Section DataModel.

(** One turn of the inner loop pushes what the probe of its pair finds. *)
Lemma relate_probe (entityArray : list string) (relationships : list (JsValue Relationship))
    (i j : nat) (a b : string) :
  entityArray !! i = Some a -> entityArray !! j = Some b ->
  relate entityArray relationships i j
  = (relationships ++ option_list (probe a b))%list.
Proof.
  intros Ha Hb. unfold relate, probe. rewrite Ha, Hb.
  destruct (JsObject.get relationshipMap (a ++ "-" ++ b)); [done|].
  destruct (JsObject.get relationshipMap (b ++ "-" ++ a)); [done|].
  by rewrite app_nil_r.
Qed.

Lemma relate_inner (entityArray : list string) (i : nat) (a : string) (count start : nat)
    (relationships : list (JsValue Relationship)) :
  entityArray !! i = Some a ->
  (start + count <= length entityArray)%nat ->
  fold_left (fun relationships j => relate entityArray relationships i j)
    (seq start count) relationships
  = (relationships ++ omap (probe a) (take count (drop start entityArray)))%list.
Proof.
  intros Ha. revert start relationships.
  induction count as [|count IH]; intros start relationships Hbound; csimpl.
  - by rewrite app_nil_r.
  - destruct (lookup_lt_is_Some_2 entityArray start) as [b Hb]; [lia|].
    rewrite (relate_probe _ _ _ _ a b Ha Hb), IH by lia.
    rewrite (drop_S _ _ _ Hb). csimpl. rewrite <- app_assoc. f_equal.
    by destruct (probe a b).
Qed.

Lemma omap_probe_pairs (a : string) (rest : list string) :
  omap probePair (pair a <$> rest) = omap (probe a) rest.
Proof.
  induction rest as [|b rest IH]; csimpl; [done|].
  unfold probePair at 1; csimpl. by rewrite IH.
Qed.

Lemma relate_outer (entityArray : list string) (count start : nat)
    (relationships : list (JsValue Relationship)) :
  (start + count = length entityArray)%nat ->
  fold_left
    (fun relationships i =>
       fold_left (fun relationships j => relate entityArray relationships i j)
         (seq (i + 1) (length entityArray - (i + 1))) relationships)
    (seq start count) relationships
  = (relationships ++ omap probePair (orderedPairs (drop start entityArray)))%list.
Proof.
  revert start relationships.
  induction count as [|count IH]; intros start relationships Hbound; csimpl.
  - rewrite drop_ge by lia. by rewrite app_nil_r.
  - destruct (lookup_lt_is_Some_2 entityArray start) as [a Ha]; [lia|].
    rewrite (relate_inner _ _ a _ _ _ Ha) by lia.
    rewrite IH by lia. rewrite (drop_S _ _ _ Ha). csimpl.
    rewrite omap_app, omap_probe_pairs, <- app_assoc. do 2 f_equal.
    rewrite take_ge; [by rewrite Nat.add_1_r|].
    rewrite length_drop. lia.
Qed.

(** The nested loops probe each pair of the entity array once. *)
Lemma relateAll_pairs (entityArray : list string) :
  relateAll entityArray = omap probePair (orderedPairs entityArray).
Proof. unfold relateAll. by rewrite relate_outer. Qed.

Lemma elem_of_orderedPairs (entities : list string) (a b : string) :
  (a, b) ∈ orderedPairs entities -> a ∈ entities /\ b ∈ entities.
Proof.
  induction entities as [|x rest IH]; csimpl; [by intros []%elem_of_nil|].
  intros [Hhead | Htail]%elem_of_app.
  - apply list_elem_of_fmap in Hhead as (y & [= -> ->] & Hy).
    split; [by left | by right].
  - destruct (IH Htail). split; by right.
Qed.

(** Every inferred entity is one of the twelve names. *)
Lemma extractEntities_names (workflow : list WorkflowStep) (x : string) :
  x ∈ extractEntities workflow -> x ∈ entityNames.
Proof.
  destruct (extractEntities_cases workflow) as [[_ ->] | [_ ->]].
  - intros ->%list_elem_of_singleton. apply (bool_decide_unpack _). by vm_compute.
  - intros [[]%elem_of_nil | (step & rule & _ & Hrule & _ & ->)]%elem_of_scan.
    repeat (apply elem_of_cons in Hrule as [-> | Hrule];
            [apply (bool_decide_unpack _); by vm_compute|]).
    by apply elem_of_nil in Hrule.
Qed.

(** On entity names, whatever a probe finds is the table entry between
    the two names. *)
Lemma probe_sound (a b : string) (r : JsValue Relationship) :
  a ∈ entityNames -> b ∈ entityNames -> probe a b = Some r -> tableEntryBetween a b r.
Proof.
  intros Ha%list_elem_of_In Hb%list_elem_of_In Hr.
  assert (forallb (fun a => forallb (fun b =>
            match probe a b with
            | Some r => bool_decide (tableEntryBetween a b r)
            | None => true
            end) entityNames) entityNames = true) as Hall by (by vm_compute).
  rewrite forallb_forall in Hall. specialize (Hall a Ha).
  rewrite forallb_forall in Hall. specialize (Hall b Hb).
  rewrite Hr in Hall. by apply bool_decide_eq_true in Hall.
Qed.

Lemma tableEntryBetween_links (a b x y : string) (r : JsValue Relationship) :
  tableEntryBetween x y r -> links a b r = true -> isPair a b (x, y) = true.
Proof.
  destruct r as [rel|]; csimpl; [|done].
  intros [_ Hxy] Hab%bool_decide_eq_true. apply bool_decide_eq_true.
  destruct Hxy as [[Hf Ht] | [Hf Ht]], Hab as [[Hf' Ht'] | [Hf' Ht']];
    [left | right | right | left]; congruence.
Qed.

(** Counting through [omap]: what is kept after the map is bounded by what
    is kept before it. *)
Lemma filter_omap_length {A B : Type} (f : A -> option B) (P : B -> bool) (Q : A -> bool)
    (items : list A) :
  (forall x y, x ∈ items -> f x = Some y -> P y = true -> Q x = true) ->
  (length (List.filter P (omap f items)) <= length (List.filter Q items))%nat.
Proof.
  induction items as [|x items IH]; intros Himp; csimpl; [done|].
  assert (length (List.filter P (omap f items)) <= length (List.filter Q items))%nat as Hrest.
  { apply IH. intros x' y Hx'. apply Himp. by right. }
  destruct (f x) as [y|] eqn:Hfx; csimpl.
  - destruct (P y) eqn:HP; csimpl.
    + rewrite (Himp x y); [csimpl; lia | by left | done | done].
    + destruct (Q x); csimpl; lia.
  - destruct (Q x); csimpl; lia.
Qed.

Lemma filter_isPair_absent (a b : string) (entities : list string) :
  a ∉ entities \/ b ∉ entities ->
  List.filter (isPair a b) (orderedPairs entities) = [].
Proof.
  intros Habsent.
  destruct (List.filter (isPair a b) (orderedPairs entities)) as [|[x y] rest] eqn:Hf; [done|].
  assert ((x, y) ∈ List.filter (isPair a b) (orderedPairs entities)) as Hin
    by (rewrite Hf; by left).
  apply list_elem_of_In, filter_In in Hin as [Hin%list_elem_of_In Hpair].
  apply elem_of_orderedPairs in Hin as [Hx Hy].
  apply bool_decide_eq_true in Hpair as [[= -> ->] | [= -> ->]]; tauto.
Qed.

Lemma filter_isPair_head (a b x : string) (rest : list string) :
  a <> b -> NoDup (x :: rest) ->
  (length (List.filter (isPair a b) (pair x <$> rest)) <= 1)%nat
  /\ (x <> a -> x <> b -> List.filter (isPair a b) (pair x <$> rest) = []).
Proof.
  intros Hab Hnd. apply NoDup_cons in Hnd as [_ Hnd].
  induction rest as [|y rest IH]; csimpl; [split; [lia | done]|].
  apply NoDup_cons in Hnd as [Hy Hnd]. destruct (IH Hnd) as [IHle IHnil].
  destruct (isPair a b (x, y)) eqn:Hpair; csimpl; [|done].
  apply bool_decide_eq_true in Hpair.
  split.
  - assert (List.filter (isPair a b) (pair x <$> rest) = []) as ->; [|csimpl; lia].
    destruct (List.filter (isPair a b) (pair x <$> rest)) as [|[x' y'] more] eqn:Hf; [done|].
    assert ((x', y') ∈ List.filter (isPair a b) (pair x <$> rest)) as Hin
      by (rewrite Hf; by left).
    apply list_elem_of_In, filter_In in Hin as [Hin%list_elem_of_In Hpair'].
    apply list_elem_of_fmap in Hin as (z & Hpz & Hz).
    apply bool_decide_eq_true in Hpair'.
    destruct Hpair as [Hp | Hp], Hpair' as [Hp' | Hp']; simplify_eq; done.
  - intros Hxa Hxb. destruct Hpair as [Hp | Hp]; simplify_eq; done.
Qed.

(** In a sequence without repetition an unordered pair is visited at most
    once. *)
Lemma orderedPairs_once (a b : string) (entities : list string) :
  a <> b -> NoDup entities ->
  (length (List.filter (isPair a b) (orderedPairs entities)) <= 1)%nat.
Proof.
  intros Hab. induction entities as [|x rest IH]; intros Hnd; csimpl; [lia|].
  rewrite List.filter_app, length_app.
  destruct (filter_isPair_head a b x rest Hab Hnd) as [Hhead Hnone].
  apply NoDup_cons in Hnd as [Hx Hnd].
  destruct (decide (x = a)) as [-> | Hxa].
  - rewrite (filter_isPair_absent a b rest) by (by left). csimpl. lia.
  - destruct (decide (x = b)) as [-> | Hxb].
    + rewrite (filter_isPair_absent a b rest) by (by right). csimpl. lia.
    + rewrite (Hnone Hxa Hxb). csimpl. by apply IH.
Qed.

End DataModel.

Lemma orderedPairs_distinct (entities : list string) (a b : string) :
  NoDup entities -> (a, b) ∈ orderedPairs entities -> a <> b.
Proof.
  induction entities as [|x rest IH]; csimpl; [by intros _ []%elem_of_nil|].
  intros [Hx Hnd]%NoDup_cons [Hhead | Htail]%elem_of_app.
  - apply list_elem_of_fmap in Hhead as (y & Hpair & Hy). simplify_eq.
    intros <-. done.
  - by apply IH.
Qed.

(** C6. The relationships of the data model are what the probes of the
    pairs of inferred entities find, each pair probed once, with the key
    [a-b] first and [b-a] next. Every relationship is an entry of the
    relationship table whose two endpoints are distinct inferred entities,
    and no two relationships link the same two entities. *)
Theorem generateDataModel_relationships (workflow : list WorkflowStep) (description : string) :
  NoDup (extractEntities workflow)
  /\ dm_relationships (generateDataModel workflow description)
     = omap probePair (orderedPairs (extractEntities workflow))
  /\ (forall r, r ∈ dm_relationships (generateDataModel workflow description) ->
        exists rel,
          r = JsData rel
          /\ relationshipMap !! (rel_from rel ++ "-" ++ rel_to rel) = Some rel
          /\ rel_from rel ∈ extractEntities workflow
          /\ rel_to rel ∈ extractEntities workflow
          /\ rel_from rel <> rel_to rel)
  /\ (forall a b, a <> b ->
        (length (List.filter (links a b)
                   (dm_relationships (generateDataModel workflow description))) <= 1)%nat).
Proof.
  pose proof (NoDup_extractEntities workflow) as Hnd.
  assert (dm_relationships (generateDataModel workflow description)
          = omap probePair (orderedPairs (extractEntities workflow))) as Hrels
    by apply relateAll_pairs.
  split; [done|]. split; [done|]. rewrite Hrels. split.
  - intros r ([a b] & Hpair & Hprobe)%list_elem_of_omap.
    pose proof (orderedPairs_distinct _ _ _ Hnd Hpair) as Hdistinct.
    apply elem_of_orderedPairs in Hpair as [Ha Hb].
    pose proof (probe_sound a b r (extractEntities_names _ _ Ha)
                  (extractEntities_names _ _ Hb) Hprobe) as Hentry.
    destruct r as [rel|]; [|done]. destruct Hentry as [Htable Hends].
    exists rel. split; [done|]. split; [done|].
    destruct Hends as [[-> ->] | [-> ->]]; done.
  - intros a b Hab.
    etransitivity; [|apply (orderedPairs_once a b _ Hab Hnd)].
    apply filter_omap_length. intros [x y] r Hpair Hprobe Hlinks.
    apply elem_of_orderedPairs in Hpair as [Hx Hy].
    apply (tableEntryBetween_links a b x y r); [|done].
    by apply probe_sound; [apply (extractEntities_names workflow)..|].
Qed.

(** C6 on the e-commerce template: the relationship between User and
    Order is a table entry, and it is the only one between the two. *)
Lemma generateDataModel_relationships_witness :
  relationshipMap !! "User-Order"
    = Some (mkRelationship "User" "Order" "one-to-many" "User places orders")
  /\ (length (List.filter (links "User" "Order")
                (dm_relationships (generateDataModel template_ecommerce "checkout"))) <= 1)%nat.
Proof.
  destruct (generateDataModel_relationships template_ecommerce "checkout")
    as (_ & _ & Htable & Honce).
  split.
  - destruct (Htable (JsData (mkRelationship "User" "Order" "one-to-many"
                                "User places orders")))
      as (rel & [= <-] & Hentry & _).
    + apply (bool_decide_unpack _). vm_compute. reflexivity.
    + exact Hentry.
  - apply Honce. discriminate.
Defined.

(** ** The pipeline and the controller *)

Section Pipeline.

Lemma detectType_range (entries : list (string * list string)) (lowerDesc fallback : string) :
  detectType entries lowerDesc fallback ∈ fallback :: entries.*1.
Proof.
  induction entries as [|[type keywords] entries IH]; csimpl; [by left|].
  destruct (existsb _ keywords).
  - right; by left.
  - apply elem_of_cons in IH as [-> | IH]; [by left | by do 2 right].
Qed.

(** The classifier only names categories that have a template. *)
Lemma analyzeDescription_has_template (description : string) :
  exists steps,
    generateStepsForType (analysis_type (analyzeDescription description)) description
    = JsData steps.
Proof.
  pose proof (detectType_range types (JsString.toLowerCase description) "general") as Hrange.
  rewrite <- analysis_type_unfold in Hrange.
  pose proof (generateStepsForType_categories description) as Hall.
  rewrite Forall_forall in Hall.
  destruct (Hall _ Hrange) as (steps & _ & Hsteps). by exists steps.
Qed.

(** The end-to-end example: the checkout request is classified ecommerce
    and yields ten steps, a diagram that starts with the header, and a
    data model with Product and Order and a relationship between them. *)
Lemma generateWorkflow_checkout_example (world : World) :
  analysis_type (analyzeDescription checkoutRequest) = "ecommerce"
  /\ exists result,
       outcome (generateWorkflow world checkoutRequest) = Returned result
       /\ length (sr_workflow result) = 10%nat
       /\ JsString.startsWith (sr_mermaid_diagram result) "graph TD" = true
       /\ "Product" ∈ (dm_entities (sr_data_model result)).*1
       /\ "Order" ∈ (dm_entities (sr_data_model result)).*1
       /\ JsData (mkRelationship "Order" "Product" "many-to-many" "Order contains products")
            ∈ dm_relationships (sr_data_model result).
Proof.
  split; [by vm_compute|]. eexists. split; [by vm_compute|].
  split; [by vm_compute|]. split; [by vm_compute|].
  repeat split; apply (bool_decide_unpack _); by vm_compute.
Qed.

End Pipeline.


(** C9. A request whose description is missing, is not a string, or has
    fewer than ten characters once trimmed is answered with a validation
    failure (status 400, an error name and a message), and handling it
    makes no call to [generateWorkflow]; the input "short" is answered
    that way. Any other request makes exactly one call, with the trimmed
    description. *)
Theorem generateScenario_rejects (world : World) (req : Request) :
  (unacceptable (body_description req) ->
     serviceCalls (generateScenario world req) = []
     /\ validationFailure (response (generateScenario world req))
     /\ (response (generateScenario world req) = invalidInput
         \/ response (generateScenario world req) = tooShort))
  /\ (~ unacceptable (body_description req) ->
      exists description,
        body_description req = InString description
        /\ serviceCalls (generateScenario world req) = [JsString.trim description])
  /\ generateScenario world (mkRequest (InString "short")) = mkHandled [] tooShort.
Proof.
  assert (validationFailure invalidInput) as Hinvalid.
  { split; [done|]. do 2 eexists. split; [reflexivity|]. split; discriminate. }
  assert (validationFailure tooShort) as Hshort.
  { split; [done|]. do 2 eexists. split; [reflexivity|]. split; discriminate. }
  assert (forall input, (forall s, input <> InString s) ->
            generateScenario world (mkRequest input) = mkHandled [] invalidInput) as Hother.
  { intros input Hnot. destruct input; try done. by destruct (Hnot s). }
  destruct req as [input]. cbn [body_description].
  split; [|split; [|done]].
  - destruct input as [| | | |description| |];
      try (intros _; rewrite Hother by done; split; [done|]; split; [done | by left]).
    cbn [unacceptable]. intros Hlen. unfold generateScenario. cbn [body_description].
    destruct (String.length description =? 0)%nat.
    + split; [done|]. split; [done | by left].
    + apply Nat.ltb_lt in Hlen. rewrite Hlen. split; [done|]. split; [done | by right].
  - destruct input as [| | | |description| |]; try (intros Hacc; by destruct Hacc).
    cbn [unacceptable]. intros Hlen. exists description. split; [done|].
    unfold generateScenario. cbn [body_description].
    destruct (String.length description =? 0)%nat eqn:Hzero.
    + apply Nat.eqb_eq in Hzero. destruct description; [|done].
      destruct Hlen. vm_compute. lia.
    + apply Nat.ltb_nlt in Hlen. rewrite Hlen.
      by destruct (outcome (generateWorkflow world (JsString.trim description))).
Qed.

(** C9 on three requests: no description, a number, and a string of
    blanks. *)
Lemma generateScenario_rejects_witness :
  serviceCalls (generateScenario (mkWorld 0 "2026-01-01T00:00:00.000Z")
                  (mkRequest InUndefined)) = []
  /\ serviceCalls (generateScenario (mkWorld 0 "2026-01-01T00:00:00.000Z")
                     (mkRequest (InNumber 1234567890123))) = []
  /\ validationFailure
       (response (generateScenario (mkWorld 0 "2026-01-01T00:00:00.000Z")
                    (mkRequest (InString "     short      "))))
  /\ serviceCalls (generateScenario (mkWorld 0 "2026-01-01T00:00:00.000Z")
                     (mkRequest (InString "  Build a login page  ")))
     = ["Build a login page"].
Proof.
  split; [|split; [|split]].
  - apply (proj1 (generateScenario_rejects _ (mkRequest InUndefined))). exact I.
  - apply (proj1 (generateScenario_rejects _ (mkRequest (InNumber 1234567890123)))).
    exact I.
  - apply (proj1 (generateScenario_rejects _ (mkRequest (InString "     short      ")))).
    vm_compute. lia.
  - destruct (proj1 (proj2 (generateScenario_rejects
                (mkWorld 0 "2026-01-01T00:00:00.000Z")
                (mkRequest (InString "  Build a login page  ")))))
      as (description & [= <-] & Hcalls).
    + vm_compute. lia.
    + exact Hcalls.
Defined.

(** * Further properties *)

(** ** Classification *)

Section ClassificationMore.

Lemma toLowerChar_idem (c : ascii) :
  JsString.toLowerChar (JsString.toLowerChar c) = JsString.toLowerChar c.
Proof. by destruct c as [[] [] [] [] [] [] [] []]. Qed.

Lemma toLowerCase_idem (s : string) :
  JsString.toLowerCase (JsString.toLowerCase s) = JsString.toLowerCase s.
Proof. induction s as [|c s IH]; csimpl; [done | by rewrite toLowerChar_idem, IH]. Qed.

Lemma matches_monotone (narrow wide : string) (keywords : list string) :
  (forall kw, JsString.includes narrow kw = true -> JsString.includes wide kw = true) ->
  existsb (fun kw => JsString.includes narrow kw) keywords = true ->
  existsb (fun kw => JsString.includes wide kw) keywords = true.
Proof.
  intros Hmono (kw & Hkw & Hin)%existsb_exists. apply existsb_exists.
  exists kw. split; [done | by apply Hmono].
Qed.

Lemma indexOf_cons_ne (x y : string) (names : list string) :
  x <> y -> indexOf x (y :: names) = S (indexOf x names).
Proof. intros Hne. csimpl. by rewrite bool_decide_eq_false_2. Qed.

(** More text can only move the detected entry forward in the table. *)
Lemma detectType_monotone (entries : list (string * list string))
    (narrow wide fallback : string) :
  NoDup (fallback :: entries.*1) ->
  (forall kw, JsString.includes narrow kw = true -> JsString.includes wide kw = true) ->
  (indexOf (detectType entries wide fallback) entries.*1
   <= indexOf (detectType entries narrow fallback) entries.*1)%nat.
Proof.
  intros Hnd Hmono. induction entries as [|[type keywords] entries IH]; csimpl; [lia|].
  destruct (existsb (fun kw => JsString.includes wide kw) keywords) eqn:Hwide.
  - rewrite bool_decide_eq_true_2 by done. lia.
  - destruct (existsb (fun kw => JsString.includes narrow kw) keywords) eqn:Hnarrow.
    { apply (matches_monotone narrow wide) in Hnarrow; [congruence | done]. }
    apply NoDup_cons in Hnd as [Hfb Hnd]. apply NoDup_cons in Hnd as [Htype Hnd].
    assert (forall text, detectType entries text fallback <> type) as Hother.
    { intros text Heq. pose proof (detectType_range entries text fallback) as Hrange.
      rewrite Heq in Hrange. apply elem_of_cons in Hrange as [-> | Hrange]; [|done].
      apply Hfb. by left. }
    rewrite !bool_decide_eq_false_2 by apply Hother.
    apply le_n_S, IH. apply NoDup_cons. split; [|done].
    intros Hin. apply Hfb. by right.
Qed.

Lemma includes_embedded (before text after kw : string) :
  JsString.includes text kw = true ->
  JsString.includes (before ++ text ++ after) kw = true.
Proof.
  rewrite !includes_spec. intros (l & r & ->).
  exists (before ++ l), (r ++ after). by rewrite !append_assoc.
Qed.

End ClassificationMore.

(** X1. The category returned by [analyzeDescription] is always one of the
    nine categories, and the description it returns is a fixed point:
    analysing it again gives the same analysis. *)
Theorem analyzeDescription_range_and_fixpoint (description : string) :
  analysis_type (analyzeDescription description) ∈ categories
  /\ analyzeDescription (analysis_description (analyzeDescription description))
     = analyzeDescription description.
Proof.
  split.
  - pose proof (detectType_range types (JsString.toLowerCase description) "general") as H.
    rewrite analysis_type_unfold. unfold categories.
    apply elem_of_cons in H as [-> | H]; apply elem_of_app; [right; by left | by left].
  - unfold analyzeDescription. cbn [analysis_description]. by rewrite toLowerCase_idem.
Qed.

(** X2. Putting text before or after a description never moves it to a
    later category of the priority order: the category of the longer text
    comes at or before the category of the text it contains. *)
Theorem analyzeDescription_priority_monotone (before description after : string) :
  (priority (analysis_type (analyzeDescription (before ++ description ++ after)))
   <= priority (analysis_type (analyzeDescription description)))%nat.
Proof.
  rewrite !analysis_type_unfold. unfold priority.
  apply detectType_monotone; [apply (bool_decide_unpack _); by vm_compute|].
  intros kw. rewrite !toLowerCase_app. apply includes_embedded.
Qed.

(** ** The mock generator *)

Section Generator.

Lemma categories_list :
  categories = [ "ecommerce"; "auth"; "booking"; "support"; "content"; "workflow";
                 "data"; "notification"; "general" ].
Proof. reflexivity. Qed.

Lemma summaries_nonempty (type summary : string) :
  summaries !! type = Some summary -> summary <> EmptyString.
Proof.
  intros Hlookup. apply elem_of_list_to_map_2 in Hlookup.
  repeat (apply elem_of_cons in Hlookup as [[= -> ->] | Hlookup]; [done|]).
  by apply elem_of_nil in Hlookup.
Qed.

(** The two tables have the nine categories as their keys. *)
Lemma tables_keys (type : string) :
  (type ∈ categories <-> is_Some (templates !! type))
  /\ (type ∈ categories <-> is_Some (summaries !! type)).
Proof.
  split; (split; [intros Hcat | intros [v Hv]]).
  - rewrite categories_list in Hcat.
    repeat (apply elem_of_cons in Hcat as [-> | Hcat]; [eexists; by vm_compute|]).
    by apply elem_of_nil in Hcat.
  - apply elem_of_list_to_map_2 in Hv.
    repeat (apply elem_of_cons in Hv as [[= -> ->] | Hv];
            [apply (bool_decide_unpack _); by vm_compute|]).
    by apply elem_of_nil in Hv.
  - rewrite categories_list in Hcat.
    repeat (apply elem_of_cons in Hcat as [-> | Hcat]; [eexists; by vm_compute|]).
    by apply elem_of_nil in Hcat.
  - apply elem_of_list_to_map_2 in Hv.
    repeat (apply elem_of_cons in Hv as [[= -> ->] | Hv];
            [apply (bool_decide_unpack _); by vm_compute|]).
    by apply elem_of_nil in Hv.
Qed.

Lemma categories_not_inherited (type : string) :
  type ∈ categories -> type ∉ JsObject.prototypeKeys.
Proof.
  intros Hcat. rewrite categories_list in Hcat.
  repeat (apply elem_of_cons in Hcat as [-> | Hcat];
          [apply (bool_decide_unpack _); by vm_compute|]).
  by apply elem_of_nil in Hcat.
Qed.

(** On a category both generators answer with the entries of the
    tables. *)
Lemma generators_steps_summary (type description : string) :
  type ∈ categories ->
  exists steps summary,
    generateStepsForType type description = JsData steps
    /\ generateSummary type description = JsData summary
    /\ templates !! type = Some steps
    /\ summaries !! type = Some summary.
Proof.
  intros Hcat. destruct (tables_keys type) as [Htemplates Hsummaries].
  destruct (proj1 Htemplates Hcat) as [steps Hsteps].
  destruct (proj1 Hsummaries Hcat) as [summary Hsummary].
  exists steps, summary.
  unfold generateStepsForType, generateSummary, JsObject.getOr, JsObject.get.
  by rewrite Hsteps, Hsummary.
Qed.

End Generator.

(** X3. On every name that [Object.prototype] does not define, the step
    generator and the summary generator both answer from their tables: a
    category gets its own template and its own summary, any other name the
    general template and the general summary. The template has 7 to 10
    steps with the distinct ids 1, 2, ... in order, and the summary is not
    empty. *)
Theorem generators_fall_back_to_general (type description : string) :
  type ∉ JsObject.prototypeKeys ->
  exists steps summary,
    generateStepsForType type description = JsData steps
    /\ generateSummary type description = JsData summary
    /\ wellFormedTemplate steps
    /\ summary <> EmptyString
    /\ (type ∈ categories ->
        templates !! type = Some steps /\ summaries !! type = Some summary)
    /\ (type ∉ categories -> steps = template_general /\ summary = summary_general).
Proof.
  intros Hown. destruct (tables_keys type) as [Htemplates Hsummaries].
  unfold generateStepsForType, generateSummary, JsObject.getOr, JsObject.get.
  destruct (templates !! type) as [steps|] eqn:Hsteps;
    destruct (summaries !! type) as [summary|] eqn:Hsummary.
  - exists steps, summary. split; [done|]. split; [done|].
    split; [by apply (wellFormedTemplate_table type)|].
    split; [by apply (summaries_nonempty type)|].
    split; [done|]. intros Hnot. destruct Hnot. by apply Htemplates.
  - assert (is_Some (None : option string)) as [? ?]; [|done].
    apply Hsummaries, Htemplates. by eexists.
  - assert (is_Some (None : option (list WorkflowStep))) as [? ?]; [|done].
    apply Htemplates, Hsummaries. by eexists.
  - rewrite bool_decide_eq_false_2 by done. exists template_general, summary_general.
    split; [done|]. split; [done|].
    split; [apply wellFormedTemplate_general|]. split; [done|].
    split; [|done]. intros Hcat. apply Htemplates in Hcat as [? ?]. done.
Qed.

(** X3 on a category and on a name outside the tables. *)
Lemma generators_fall_back_to_general_witness :
  generateStepsForType "booking" "reserve a table" = JsData template_booking
  /\ generateStepsForType "space travel" "fly to the moon" = JsData template_general
  /\ generateSummary "space travel" "fly to the moon" = JsData summary_general.
Proof.
  destruct (generators_fall_back_to_general "booking" "reserve a table")
    as (steps & summary & -> & _ & _ & _ & Hcat & _).
  { apply (bool_decide_unpack _). vm_compute. reflexivity. }
  destruct (generators_fall_back_to_general "space travel" "fly to the moon")
    as (steps' & summary' & -> & -> & _ & _ & _ & Hother).
  { apply (bool_decide_unpack _). vm_compute. reflexivity. }
  destruct Hcat as [Hsteps _].
  { apply (bool_decide_unpack _). vm_compute. reflexivity. }
  destruct Hother as [-> ->].
  { apply (bool_decide_unpack _). vm_compute. reflexivity. }
  split; [|done]. f_equal. revert Hsteps. vm_compute. congruence.
Defined.

(** X4. Whatever the description, the mock generator answers with the
    template and the summary of one and the same category, the category it
    reports in [metadata.detectedType]; the stamp is the clock reading and
    the provider is "mock". Neither the workflow nor the summary is ever a
    built-in. *)
Theorem mockAIGenerate_consistent (world : World) (description : string) :
  exists category steps summary,
    category ∈ categories
    /\ templates !! category = Some steps
    /\ summaries !! category = Some summary
    /\ outcome (mockAIGenerate world description)
       = {| ai_workflow := JsData steps;
            ai_summary := JsData summary;
            ai_metadata := {| detectedType := category;
                              generatedAt := world_now world;
                              aiProvider := "mock" |} |}.
Proof.
  pose proof (detectType_range types (JsString.toLowerCase description) "general") as Hrange.
  rewrite <- analysis_type_unfold in Hrange.
  assert (analysis_type (analyzeDescription description) ∈ categories) as Hcat.
  { unfold categories. apply elem_of_cons in Hrange as [-> | H];
      apply elem_of_app; [right; by left | by left]. }
  destruct (generators_steps_summary (analysis_type (analyzeDescription description))
              description Hcat) as (steps & summary & Hsteps & Hsummary & Ht & Hs).
  exists (analysis_type (analyzeDescription description)), steps, summary.
  split; [done|]. split; [done|]. split; [done|].
  unfold mockAIGenerate. cbn [outcome]. by rewrite Hsteps, Hsummary.
Qed.



(** ** Labels *)

Section EscapingMore.

Lemma countChar_app (c : ascii) (s t : string) :
  countChar c (s ++ t) = (countChar c s + countChar c t)%nat.
Proof.
  induction s as [|d s IH]; [done|]. rewrite append_cons. csimpl. rewrite IH. lia.
Qed.

Lemma length_append (s t : string) :
  String.length (s ++ t) = (String.length s + String.length t)%nat.
Proof. induction s as [|d s IH]; [done|]. rewrite append_cons. csimpl. by rewrite IH. Qed.

Lemma countChars_app (chars : list ascii) (s t : string) :
  countChars chars (s ++ t) = (countChars chars s + countChars chars t)%nat.
Proof.
  unfold countChars. induction chars as [|c chars IH]; csimpl; [done|].
  rewrite countChar_app, IH. lia.
Qed.

(** What escaping does to one character. *)
Lemma escapeLabel_char (c : ascii) :
  Forall (fun s => countChar s (escapeLabel (String c EmptyString)) = 0%nat) structural
  /\ (String.length (escapeLabel (String c EmptyString))
      + countChars brackets (String c EmptyString)
      = 1 + countChar "<" (String c EmptyString) + countChar ">" (String c EmptyString))%nat
  /\ (countChars structural (String c EmptyString) = 0%nat ->
      countChar "<" (String c EmptyString) = 0%nat ->
      countChar ">" (String c EmptyString) = 0%nat ->
      escapeLabel (String c EmptyString) = String c EmptyString).
Proof.
  destruct c as [[] [] [] [] [] [] [] []];
    (split; [apply (bool_decide_unpack _); by vm_compute|]);
    (split; [by vm_compute|]);
    vm_compute; congruence.
Qed.

Lemma escapeLabel_quote_free (text : string) :
  countChar JsString.dquote (escapeLabel text) = 0%nat.
Proof.
  induction text as [|d text IH]; [done|].
  rewrite escapeLabel_cons, countChar_app, IH.
  destruct (escapeLabel_char d) as [Hall _]. rewrite Forall_forall in Hall.
  rewrite (Hall JsString.dquote); [done | by left].
Qed.

End EscapingMore.

(** X6. An escaped label contains no double quote and no bracket, brace
    or parenthesis, whatever the text. *)
Theorem escapeLabel_no_structural (text : string) (c : ascii) :
  c ∈ structural -> countChar c (escapeLabel text) = 0%nat.
Proof.
  intros Hc. induction text as [|d text IH]; [done|].
  rewrite escapeLabel_cons, countChar_app, IH.
  destruct (escapeLabel_char d) as [Hall _]. rewrite Forall_forall in Hall.
  by rewrite (Hall c Hc).
Qed.

(** X6 on a label full of brackets. *)
Lemma escapeLabel_no_structural_witness :
  countChar "[" (escapeLabel "a[b]{c}(d)") = 0%nat.
Proof.
  apply escapeLabel_no_structural. apply (bool_decide_unpack _). vm_compute. reflexivity.
Defined.

(** X7. Escaping distributes over concatenation, and it changes the
    length of a text by exactly what it drops and adds: one character less
    for every bracket, brace and parenthesis, one more for every [<] and
    [>]. *)
Theorem escapeLabel_concat_and_length (s t : string) :
  escapeLabel (s ++ t) = escapeLabel s ++ escapeLabel t
  /\ (String.length (escapeLabel s) + countChars brackets s
      = String.length s + countChar "<" s + countChar ">" s)%nat.
Proof.
  split; [apply escapeLabel_app|].
  induction s as [|c s IH]; [done|].
  rewrite escapeLabel_cons, length_append.
  change (String c s) with (String c EmptyString ++ s).
  rewrite countChars_app, !countChar_app, length_append.
  destruct (escapeLabel_char c) as (_ & Hlen & _). csimpl in *. lia.
Qed.

(** X8. A text without double quotes, brackets, braces, parentheses, [<]
    and [>] is its own escaped form. *)
Theorem escapeLabel_identity (text : string) :
  countChars structural text = 0%nat ->
  countChar "<" text = 0%nat -> countChar ">" text = 0%nat ->
  escapeLabel text = text.
Proof.
  induction text as [|c text IH]; [done|].
  change (String c text) with (String c EmptyString ++ text).
  rewrite countChars_app, !countChar_app. intros Hs Hlt Hgt.
  change (String c EmptyString ++ text) with (String c text).
  rewrite escapeLabel_cons.
  destruct (escapeLabel_char c) as (_ & _ & Hid).
  rewrite Hid, IH by lia. done.
Qed.

(** X8 on a step name of the templates. *)
Lemma escapeLabel_identity_witness :
  escapeLabel "Auto-Categorize" = "Auto-Categorize".
Proof. apply escapeLabel_identity; vm_compute; reflexivity. Defined.

(** ** The diagram *)

Section DiagramMore.

Lemma edgesOf_shift (first : WorkflowStep) (workflow : list WorkflowStep) (i : nat) :
  edgesOf (first :: workflow) (S i) = edgesOf workflow i.
Proof. reflexivity. Qed.




Lemma join_cons (sep first second : string) (rest : list string) :
  JsString.join sep (first :: second :: rest)
  = first ++ sep ++ JsString.join sep (second :: rest).
Proof. reflexivity. Qed.


Lemma digits_no_quote (d : Decimal.uint) :
  countChar JsString.dquote (NilEmpty.string_of_uint d) = 0%nat.
Proof. induction d; csimpl; done. Qed.

Lemma ofNumber_no_quote (n : N) : countChar JsString.dquote (JsString.ofNumber n) = 0%nat.
Proof.
  unfold JsString.ofNumber, NilZero.string_of_uint.
  destruct (N.to_uint n); first [done | apply digits_no_quote].
Qed.

Lemma shape_no_quote (type : string) :
  countChar JsString.dquote (printOpen (getNodeShape type)) = 0%nat
  /\ countChar JsString.dquote (printClose (getNodeShape type)) = 0%nat.
Proof.
  unfold getNodeShape, JsObject.getOr, JsObject.get.
  destruct (shapes !! type) as [shape|] eqn:Hshape.
  - apply elem_of_list_to_map_2 in Hshape.
    repeat (apply elem_of_cons in Hshape as [[= -> ->] | Hshape]; [by vm_compute|]).
    by apply elem_of_nil in Hshape.
  - by case_bool_decide.
Qed.

Lemma step_nodeId_inj (a b : N) : nodeId a = nodeId b -> a = b.
Proof.
  intros Hnode.
  assert (JsString.ofNumber a = JsString.ofNumber b) as Heq
    by (injection Hnode; intros H; exact H).
  apply DecimalN.Unsigned.to_uint_inj.
  assert (forall n, N.to_uint n <> Decimal.Nil) as Hnil.
  { intros [|p]; [done | apply DecimalPos.Unsigned.to_uint_nonnil]. }
  pose proof (NilZero.usu _ (Hnil a)) as Ha. pose proof (NilZero.usu _ (Hnil b)) as Hb.
  unfold JsString.ofNumber in Heq. rewrite Heq in Ha. congruence.
Qed.

End DiagramMore.

(** X9. Every diagram, of an empty workflow or not, begins with the
    header line "graph TD". *)
Theorem generateMermaidDiagram_header (workflow : option (list WorkflowStep)) :
  exists rest,
    generateMermaidDiagram workflow = "graph TD" ++ JsString.newline ++ rest.
Proof.
  destruct workflow as [[|step workflow]|]; [by eexists | | by eexists].
  unfold generateMermaidDiagram. cbn [length Nat.eqb].
  rewrite diagramLines_sections. unfold preamble.
  rewrite <- app_comm_cons. rewrite <- app_comm_cons. rewrite join_cons. by eexists.
Qed.






(** X13. The line of a node holds exactly two double quotes, the ones
    around the label: whatever the name and the type of the step, the label
    cannot close its own quotation. *)
Theorem nodeLine_quotes (step : WorkflowStep) :
  countChar JsString.dquote (nodeLine step) = 2%nat.
Proof.
  unfold nodeLine, nodeId.
  change (String JsString.dquote (escapeLabel (step_name step))
            ++ String JsString.dquote (printClose (getNodeShape (step_type step))))
    with (String JsString.dquote EmptyString
            ++ escapeLabel (step_name step)
            ++ String JsString.dquote (printClose (getNodeShape (step_type step)))).
  change (String JsString.dquote (printClose (getNodeShape (step_type step))))
    with (String JsString.dquote EmptyString ++ printClose (getNodeShape (step_type step))).
  rewrite !countChar_app.
  destruct (shape_no_quote (step_type step)) as [-> ->].
  rewrite ofNumber_no_quote, (escapeLabel_quote_free (step_name step)).
  reflexivity.
Qed.

(** X14. No edge dangles: every line of the connection section is a Yes,
    No or plain edge between two steps of the workflow. *)
Theorem connections_between_steps (workflow : list WorkflowStep) (line : string) :
  line ∈ connections workflow [] ->
  exists current target,
    current ∈ workflow /\ target ∈ workflow
    /\ (line = yesEdge current target
        \/ line = noEdge current target
        \/ line = plainEdge current target).
Proof.
  rewrite connections_edgesOf. csimpl.
  intros (i & _ & Hline)%list_elem_of_In%in_flat_map. apply list_elem_of_In in Hline.
  unfold edgesOf in Hline.
  destruct (workflow !! i) as [current|] eqn:Hcurrent; [|by apply elem_of_nil in Hline].
  destruct (workflow !! (i + 1)%nat) as [next|] eqn:Hnext; [|by apply elem_of_nil in Hline].
  apply list_elem_of_lookup_2 in Hcurrent, Hnext.
  destruct (isBranch current).
  - apply elem_of_cons in Hline as [-> | Hline]; [exists current, next; tauto|].
    destruct (workflow !! (i + 2)%nat) as [skipped|] eqn:Hskipped;
      [|by apply elem_of_nil in Hline].
    apply list_elem_of_lookup_2 in Hskipped.
    apply list_elem_of_singleton in Hline as ->. exists current, skipped. tauto.
  - apply list_elem_of_singleton in Hline as ->. exists current, next. tauto.
Qed.

(** X14 on the No edge of the authentication template. *)
Lemma connections_between_steps_witness :
  exists current target,
    current ∈ template_auth /\ target ∈ template_auth
    /\ ("  step5 -.->|No| step7" = yesEdge current target
        \/ "  step5 -.->|No| step7" = noEdge current target
        \/ "  step5 -.->|No| step7" = plainEdge current target).
Proof.
  apply (connections_between_steps template_auth).
  apply (bool_decide_unpack _). vm_compute. reflexivity.
Defined.

(** ** Entities and the data model *)

Section EntitiesMore.

Lemma setAdd_member (entities : list string) (entity : string) :
  entity ∈ entities -> setAdd entities entity = entities.
Proof. intros Hin. unfold setAdd. by rewrite bool_decide_eq_true_2. Qed.

Lemma applyRules_saturated (step : WorkflowStep) (rules : list (list string * string))
    (entities : list string) :
  (forall rule, rule ∈ rules -> ruleFires step rule = true -> rule.2 ∈ entities) ->
  fold_left (applyRule step) rules entities = entities.
Proof.
  induction rules as [|rule rules IH]; intros Hsat; csimpl; [done|].
  assert (applyRule step entities rule = entities) as ->.
  { unfold applyRule, addWhen. destruct (ruleFires step rule) eqn:Hfires; [|done].
    apply setAdd_member, Hsat; [by left | done]. }
  apply IH. intros r Hr. apply Hsat. by right.
Qed.

(** Scanning steps whose entities are all in the set already changes
    nothing. *)
Lemma scan_saturated (workflow : list WorkflowStep) (entities : list string) :
  (forall step rule, step ∈ workflow -> rule ∈ entityRules ->
     ruleFires step rule = true -> rule.2 ∈ entities) ->
  fold_left scanStep workflow entities = entities.
Proof.
  induction workflow as [|step workflow IH]; intros Hsat; csimpl; [done|].
  rewrite scanStep_rules, applyRules_saturated.
  - apply IH. intros s r Hs. apply Hsat. by right.
  - intros r Hr. apply Hsat; [by left | done].
Qed.

Lemma setProperty_fresh {A : Type} (object : list (string * A)) (key : string) (value : A) :
  key ∉ object.*1 -> setProperty object key value = (object ++ [(key, value)])%list.
Proof.
  induction object as [|[k v] object IH]; csimpl; [done|].
  intros Hfresh. apply not_elem_of_cons in Hfresh as [Hne Hfresh].
  rewrite bool_decide_eq_false_2 by done. by rewrite IH.
Qed.

Lemma setProperty_all {A : Type} (f : string -> A) (keys : list string)
    (object : list (string * A)) :
  NoDup (object.*1 ++ keys) ->
  fold_left (fun object key => setProperty object key (f key)) keys object
  = (object ++ ((fun key => (key, f key)) <$> keys))%list.
Proof.
  revert object. induction keys as [|key keys IH]; intros object Hnd; csimpl.
  - by rewrite app_nil_r.
  - apply NoDup_app in Hnd as (Hobj & Hdisj & Hkeys).
    apply NoDup_cons in Hkeys as [Hkey Hkeys].
    rewrite setProperty_fresh by (intros Hin; apply (Hdisj key Hin); by left).
    rewrite IH; [by rewrite <- app_assoc|].
    rewrite fmap_app. csimpl. rewrite <- app_assoc. csimpl.
    apply NoDup_app. split; [done|]. split; [|by apply NoDup_cons].
    intros x Hx. apply Hdisj in Hx as Hnot. done.
Qed.

Lemma orderedPairs_complete (entities : list string) (a b : string) :
  a ∈ entities -> b ∈ entities -> a <> b ->
  (a, b) ∈ orderedPairs entities \/ (b, a) ∈ orderedPairs entities.
Proof.
  induction entities as [|x rest IH]; [by intros []%elem_of_nil|].
  intros [-> | Ha]%elem_of_cons [-> | Hb]%elem_of_cons Hne; csimpl.
  - done.
  - left. apply elem_of_app. left. by apply list_elem_of_fmap_2.
  - right. apply elem_of_app. left. by apply list_elem_of_fmap_2.
  - destruct (IH Ha Hb Hne); [left | right]; apply elem_of_app; by right.
Qed.

Lemma length_take_string (n : nat) (s : string) :
  String.length (JsString.take n s) = Nat.min n (String.length s).
Proof.
  revert s; induction n as [|n IH]; intros [|c s]; csimpl; try done. by rewrite IH.
Qed.

Lemma take_all (n : nat) (s : string) :
  (String.length s <= n)%nat -> JsString.take n s = s.
Proof.
  revert s; induction n as [|n IH]; intros [|c s]; csimpl; try done; try lia.
  intros Hlen. rewrite IH; [done | lia].
Qed.

End EntitiesMore.

(** X15. What is inferred, entity by entity: a name is in the result
    exactly when a rule adding it fires on some step, or when it is Record
    and no rule fires on any step. *)
Theorem extractEntities_characterised (workflow : list WorkflowStep) (entity : string) :
  entity ∈ extractEntities workflow
  <-> (exists step rule,
         step ∈ workflow /\ rule ∈ entityRules
         /\ ruleFires step rule = true /\ entity = rule.2)
      \/ (entity = "Record" /\ Forall (fun step => anyRuleFires step = false) workflow).
Proof.
  destruct (extractEntities_cases workflow) as [[Hnil ->] | [Hne ->]].
  - assert (Forall (fun step => anyRuleFires step = false) workflow) as Hnone.
    { apply Forall_forall. intros step Hstep.
      destruct (anyRuleFires step) eqn:Hany; [|done].
      apply existsb_exists in Hany as (rule & Hrule%list_elem_of_In & Hfires).
      assert (rule.2 ∈ fold_left scanStep workflow []) as Hin
        by (apply elem_of_scan; right; by exists step, rule).
      rewrite Hnil in Hin. by apply elem_of_nil in Hin. }
    split.
    + intros ->%list_elem_of_singleton. by right.
    + intros [(step & rule & Hstep & Hrule & Hfires & ->) | [-> _]]; [|by left].
      rewrite Forall_forall in Hnone. specialize (Hnone step Hstep).
      assert (anyRuleFires step = true) as Hany; [|congruence].
      apply existsb_exists. exists rule. split; [by apply list_elem_of_In | done].
  - rewrite elem_of_scan. split.
    + intros [[]%elem_of_nil | H]. by left.
    + intros [H | [-> Hnone]]; [by right|].
      destruct Hne. rewrite scan_saturated; [done|].
      intros step rule Hstep Hrule Hfires.
      rewrite Forall_forall in Hnone. specialize (Hnone step Hstep).
      assert (anyRuleFires step = true) as Hany; [|congruence].
      apply existsb_exists. exists rule. split; [by apply list_elem_of_In | done].
Qed.

(** X15 on the authentication template: its sixth step mentions a
    session token, so Session is inferred. *)
Lemma extractEntities_characterised_witness :
  "Session" ∈ extractEntities template_auth.
Proof.
  apply (proj2 (extractEntities_characterised template_auth "Session")).
  left.
  exists (mkStep 6 "Generate Session" "Create session token or JWT" "system_action"),
         (["session"; "token"], "Session").
  split; [apply (bool_decide_unpack _); vm_compute; reflexivity|].
  split; [apply (bool_decide_unpack _); vm_compute; reflexivity|].
  split; [vm_compute; reflexivity | reflexivity].
Defined.

(** X16. The result is a set of entity names: it has no repetition, only
    names of the closed enumeration, and between one and eleven of them. *)
Theorem extractEntities_is_set (workflow : list WorkflowStep) :
  NoDup (extractEntities workflow)
  /\ extractEntities workflow ⊆ entityNames
  /\ (1 <= length (extractEntities workflow) <= 11)%nat.
Proof.
  split; [apply NoDup_extractEntities|].
  split; [intros x; apply extractEntities_names|].
  pose proof (extractEntities_nonempty workflow) as Hne.
  split; [destruct (extractEntities workflow); [done | csimpl; lia]|].
  destruct (extractEntities_cases workflow) as [[_ ->] | [_ ->]]; [csimpl; lia|].
  change 11%nat with (length entityRules.*2).
  apply submseteq_length, NoDup_submseteq; [apply NoDup_scan, NoDup_nil_2|].
  intros x [[]%elem_of_nil | (step & rule & _ & Hrule & _ & ->)]%elem_of_scan.
  by apply list_elem_of_fmap_2.
Qed.

(** X17. The entities depend on which steps a workflow has, not on their
    order or number: workflows with the same steps yield the same
    entities, and steps met again at the end leave even the order of
    detection as it was. *)
Theorem extractEntities_steps_only (workflow other : list WorkflowStep) :
  ((forall step, step ∈ workflow <-> step ∈ other) ->
   forall entity, entity ∈ extractEntities workflow <-> entity ∈ extractEntities other)
  /\ ((forall step, step ∈ other -> step ∈ workflow) ->
      extractEntities (workflow ++ other) = extractEntities workflow).
Proof.
  split.
  - intros Hsame entity.
    destruct (extractEntities_cases workflow) as [[Hnil ->] | [Hne ->]];
      destruct (extractEntities_cases other) as [[Hnil' ->] | [Hne' ->]]; [done | | |].
    + destruct Hne'. destruct (fold_left scanStep other []) as [|x xs] eqn:Hfold; [done|].
      assert (x ∈ fold_left scanStep other []) as Hx by (rewrite Hfold; by left).
      apply elem_of_scan in Hx as [[]%elem_of_nil | (step & rule & Hstep & Hrest)].
      assert (x ∈ fold_left scanStep workflow []) as Hin.
      { apply elem_of_scan. right. exists step, rule. split; [by apply Hsame | done]. }
      rewrite Hnil in Hin. by apply elem_of_nil in Hin.
    + destruct Hne. destruct (fold_left scanStep workflow []) as [|x xs] eqn:Hfold; [done|].
      assert (x ∈ fold_left scanStep workflow []) as Hx by (rewrite Hfold; by left).
      apply elem_of_scan in Hx as [[]%elem_of_nil | (step & rule & Hstep & Hrest)].
      assert (x ∈ fold_left scanStep other []) as Hin.
      { apply elem_of_scan. right. exists step, rule. split; [by apply Hsame | done]. }
      rewrite Hnil' in Hin. by apply elem_of_nil in Hin.
    + rewrite !elem_of_scan. split.
      * intros [? | (step & rule & Hstep & Hrest)]; [by left | right].
        exists step, rule. split; [by apply Hsame | done].
      * intros [? | (step & rule & Hstep & Hrest)]; [by left | right].
        exists step, rule. split; [by apply Hsame | done].
  - intros Hsub. unfold extractEntities. rewrite fold_left_app.
    rewrite (scan_saturated other); [done|].
    intros step rule Hstep Hrule Hfires. apply elem_of_scan. right.
    exists step, rule. split; [by apply Hsub | done].
Qed.

(** X17 on the authentication template, reversed and doubled. *)
Lemma extractEntities_steps_only_witness :
  ("Session" ∈ extractEntities template_auth
   <-> "Session" ∈ extractEntities (reverse template_auth))
  /\ extractEntities (template_auth ++ template_auth) = extractEntities template_auth.
Proof.
  split.
  - apply (proj1 (extractEntities_steps_only template_auth (reverse template_auth))).
    intros step. by rewrite elem_of_reverse.
  - apply (proj2 (extractEntities_steps_only template_auth template_auth)). done.
Defined.

Section DataModelMore.

(** The schema table has the twelve entity names as its keys, and each of
    its schemas is well formed. *)
Lemma schemas_table (entity : string) (schema : Json) :
  schemas !! entity = Some schema -> entity ∈ entityNames /\ schemaWellFormed schema.
Proof.
  intros Hlookup. apply elem_of_list_to_map_2 in Hlookup.
  repeat (apply elem_of_cons in Hlookup as [[= -> ->] | Hlookup];
          [split; [apply (bool_decide_unpack _); by vm_compute|];
           split; [by vm_compute|];
           split; [apply (bool_decide_unpack _); by vm_compute|];
           split; [apply (bool_decide_unpack _); by vm_compute|];
           split; [apply (bool_decide_unpack _); by vm_compute | by vm_compute]|]).
  by apply elem_of_nil in Hlookup.
Qed.

Lemma schemas_names (entity : string) :
  entity ∈ entityNames ->
  exists schema, schemas !! entity = Some schema
                 /\ generateEntitySchema entity = JsData schema.
Proof.
  intros Hname. unfold entityNames in Hname.
  repeat (apply elem_of_cons in Hname as [-> | Hname];
          [eexists; split; by vm_compute|]).
  by apply elem_of_nil in Hname.
Qed.

(** Both probes of the endpoints of a table entry find the entry. *)
Lemma probe_table (key : string) (rel : Relationship) :
  relationshipMap !! key = Some rel ->
  rel_from rel <> rel_to rel
  /\ probe (rel_from rel) (rel_to rel) = Some (JsData rel)
  /\ probe (rel_to rel) (rel_from rel) = Some (JsData rel).
Proof.
  intros Hlookup. apply elem_of_list_to_map_2 in Hlookup.
  repeat (apply elem_of_cons in Hlookup as [[= -> ->] | Hlookup];
          [split; [done|]; split; by vm_compute|]).
  by apply elem_of_nil in Hlookup.
Qed.

End DataModelMore.

(** X18. The [entities] object of the data model has one property per
    inferred entity, in the order of detection, and its value is the
    schema the table holds under that very name: the fallback to the Record
    schema is never taken for another entity. *)
Theorem generateDataModel_entities (workflow : list WorkflowStep) (description : string) :
  (dm_entities (generateDataModel workflow description)).*1 = extractEntities workflow
  /\ (forall entity value,
        (entity, value) ∈ dm_entities (generateDataModel workflow description) ->
        exists schema, value = JsData schema /\ schemas !! entity = Some schema).
Proof.
  assert (dm_entities (generateDataModel workflow description)
          = (fun entity => (entity, generateEntitySchema entity)) <$> extractEntities workflow)
    as Hentities.
  { unfold generateDataModel. cbn [dm_entities].
    rewrite setProperty_all; [done|]. apply NoDup_extractEntities. }
  rewrite Hentities. split.
  - rewrite <- list_fmap_compose. apply list_fmap_id.
  - intros entity value (e & [= -> ->] & He)%list_elem_of_fmap.
    destruct (schemas_names e (extractEntities_names _ _ He)) as (schema & Hs & ->).
    by exists schema.
Qed.

(** X18 on the Session entity of the authentication template. *)
Lemma generateDataModel_entities_witness :
  exists schema,
    JsData schema_Session = JsData schema /\ schemas !! "Session" = Some schema.
Proof.
  apply (proj2 (generateDataModel_entities template_auth "login")).
  apply list_elem_of_lookup. exists 1%nat. vm_compute. reflexivity.
Defined.

(** X19. On every name that [Object.prototype] does not define the schema
    lookup returns a well-formed schema: the one of the table for the
    twelve entity names, and the Record schema for any other name. *)
Theorem generateEntitySchema_well_formed (entity : string) :
  entity ∉ JsObject.prototypeKeys ->
  exists schema,
    generateEntitySchema entity = JsData schema
    /\ schemaWellFormed schema
    /\ (entity ∈ entityNames -> schemas !! entity = Some schema)
    /\ (entity ∉ entityNames -> schema = schema_Record).
Proof.
  intros Hown. unfold generateEntitySchema, JsObject.getOr, JsObject.get.
  destruct (schemas !! entity) as [schema|] eqn:Hlookup.
  - destruct (schemas_table entity schema Hlookup) as [Hname Hwf].
    exists schema. split; [done|]. split; [done|]. split; [done|]. done.
  - rewrite bool_decide_eq_false_2 by done. exists schema_Record.
    split; [done|]. split; [by apply (schemas_table "Record")|]. split; [|done].
    intros Hname. destruct (schemas_names entity Hname) as (schema & Hs & _). congruence.
Qed.

(** X19 on an entity name and on a name outside the table. *)
Lemma generateEntitySchema_well_formed_witness :
  schemaWellFormed schema_Record
  /\ generateEntitySchema "Invoice" = JsData schema_Record.
Proof.
  destruct (generateEntitySchema_well_formed "Invoice") as (schema & Heq & Hwf & _ & Hother).
  { apply (bool_decide_unpack _). vm_compute. reflexivity. }
  rewrite Hother in Hwf, Heq.
  - by split.
  - apply (bool_decide_unpack _). vm_compute. reflexivity.
  - apply (bool_decide_unpack _). vm_compute. reflexivity.
Defined.

(** X20. No relationship is missed: every entry of the relationship table
    whose two endpoints are both inferred is in the relationships of the
    data model. *)
Theorem generateDataModel_relationships_complete (workflow : list WorkflowStep)
    (description key : string) (rel : Relationship) :
  relationshipMap !! key = Some rel ->
  rel_from rel ∈ extractEntities workflow ->
  rel_to rel ∈ extractEntities workflow ->
  JsData rel ∈ dm_relationships (generateDataModel workflow description).
Proof.
  intros Hlookup Hfrom Hto.
  destruct (probe_table key rel Hlookup) as (Hne & Hprobe & Hprobe').
  change (dm_relationships (generateDataModel workflow description))
    with (relateAll (extractEntities workflow)).
  rewrite relateAll_pairs. apply list_elem_of_omap.
  destruct (orderedPairs_complete _ _ _ Hfrom Hto Hne) as [Hpair | Hpair].
  - by exists (rel_from rel, rel_to rel).
  - by exists (rel_to rel, rel_from rel).
Qed.

(** X20 on the e-commerce template: Order and Payment are inferred, so
    their relationship is there. *)
Lemma generateDataModel_relationships_complete_witness :
  JsData (mkRelationship "Order" "Payment" "one-to-one" "Order has payment")
    ∈ dm_relationships (generateDataModel template_ecommerce "checkout").
Proof.
  apply (generateDataModel_relationships_complete template_ecommerce "checkout"
           "Order-Payment").
  - vm_compute. reflexivity.
  - apply (bool_decide_unpack _). vm_compute. reflexivity.
  - apply (bool_decide_unpack _). vm_compute. reflexivity.
Defined.

(** X21. The description of the data model quotes at most the first 100
    characters of the scenario, between a fixed prefix and an ellipsis: its
    length is 29 plus the smaller of 100 and the length of the scenario,
    and a scenario of at most 100 characters is quoted whole. *)
Theorem generateDataModel_description (workflow : list WorkflowStep) (description : string) :
  String.length (dm_description (generateDataModel workflow description))
  = (29 + Nat.min 100 (String.length description))%nat
  /\ ((String.length description <= 100)%nat ->
      dm_description (generateDataModel workflow description)
      = "Data model generated for: " ++ description ++ "...").
Proof.
  unfold generateDataModel. cbn [dm_description]. split.
  - rewrite !length_append, length_take_string. csimpl. lia.
  - intros Hlen. by rewrite take_all.
Qed.

(** X21 on a short scenario. *)
Lemma generateDataModel_description_witness :
  dm_description (generateDataModel template_auth "User login flow")
  = "Data model generated for: User login flow...".
Proof.
  apply (proj2 (generateDataModel_description template_auth "User login flow")).
  vm_compute. lia.
Defined.

(** ** The controller, the form and the pipeline as a whole *)

Section ControllerMore.

Lemma trimEnd_idem (s : string) : JsString.trimEnd (JsString.trimEnd s) = JsString.trimEnd s.
Proof.
  induction s as [|c s IH]; [done|]. cbn [JsString.trimEnd].
  destruct (JsString.trimEnd s) as [|d kept] eqn:Hend.
  - destruct (JsString.isWhiteSpace c) eqn:Hws; [done|].
    cbn [JsString.trimEnd]. by rewrite Hws.
  - change (JsString.trimEnd (String c (String d kept)))
      with (match JsString.trimEnd (String d kept) with
            | EmptyString =>
                if JsString.isWhiteSpace c then EmptyString else String c EmptyString
            | String _ _ as kept' => String c kept'
            end).
    by rewrite IH.
Qed.

Lemma trimStart_head (s : string) (c : ascii) (rest : string) :
  JsString.trimStart s = String c rest -> JsString.isWhiteSpace c = false.
Proof.
  induction s as [|d s IH]; [done|]. cbn [JsString.trimStart].
  destruct (JsString.isWhiteSpace d) eqn:Hws; [done|]. by intros [= <- <-].
Qed.

Lemma trimEnd_head (c : ascii) (rest : string) :
  JsString.isWhiteSpace c = false ->
  exists kept, JsString.trimEnd (String c rest) = String c kept.
Proof.
  intros Hws. cbn [JsString.trimEnd]. rewrite Hws.
  destruct (JsString.trimEnd rest); by eexists.
Qed.

(** Trimming a trimmed text changes nothing. *)
Lemma trim_idem (s : string) : JsString.trim (JsString.trim s) = JsString.trim s.
Proof.
  unfold JsString.trim.
  destruct (JsString.trimStart s) as [|c rest] eqn:Hstart; [done|].
  destruct (trimEnd_head c rest (trimStart_head _ _ _ Hstart)) as [kept Hkept].
  rewrite Hkept. cbn [JsString.trimStart].
  rewrite (trimStart_head _ _ _ Hstart). by rewrite <- Hkept, trimEnd_idem.
Qed.

Lemma long_not_empty (description : string) :
  (10 <= String.length (JsString.trim description))%nat ->
  (String.length description =? 0)%nat = false.
Proof. destruct description; [csimpl; lia | done]. Qed.

(** What the controller does with a description of ten trimmed characters
    or more. *)
Lemma generateScenario_long (world : World) (description : string) :
  (10 <= String.length (JsString.trim description))%nat ->
  exists result,
    outcome (generateWorkflow world (JsString.trim description)) = Returned result
    /\ generateScenario world (mkRequest (InString description))
       = mkHandled [JsString.trim description] (mkResponse 200 (SuccessBody result)).
Proof.
  intros Hlen. unfold generateScenario. cbn [body_description].
  rewrite (long_not_empty _ Hlen).
  rewrite (proj2 (Nat.ltb_ge _ _) Hlen).
  destruct (analyzeDescription_has_template (JsString.trim description)) as [steps Hsteps].
  unfold generateWorkflow, mockAIGenerate.
  cbn [outcome elapsed ai_workflow ai_summary]. rewrite Hsteps. by eexists.
Qed.

(** What holds of every template of the table. *)
Lemma templates_invariants (type : string) (steps : list WorkflowStep) :
  templates !! type = Some steps ->
  ("Record" ∉ extractEntities steps)
  /\ Forall (fun step => is_Some (shapes !! step_type step)) steps.
Proof.
  intros Hlookup. apply elem_of_list_to_map_2 in Hlookup.
  repeat (apply elem_of_cons in Hlookup as [[= -> ->] | Hlookup];
          [split; apply (bool_decide_unpack _); by vm_compute|]).
  by apply elem_of_nil in Hlookup.
Qed.

End ControllerMore.

(** X22. A request whose description has ten trimmed characters or more
    is answered 200 with the result of the pipeline run on the trimmed
    description, after one call; the white space around the description
    makes no difference to the answer. *)
Theorem generateScenario_accepts (world : World) (description : string) :
  (10 <= String.length (JsString.trim description))%nat ->
  (exists result,
     outcome (generateWorkflow world (JsString.trim description)) = Returned result
     /\ generateScenario world (mkRequest (InString description))
        = mkHandled [JsString.trim description] (mkResponse 200 (SuccessBody result)))
  /\ generateScenario world (mkRequest (InString (JsString.trim description)))
     = generateScenario world (mkRequest (InString description)).
Proof.
  intros Hlen. destruct (generateScenario_long world description Hlen) as (result & Hres & Heq).
  split; [by exists result|].
  destruct (generateScenario_long world (JsString.trim description)) as (result' & Hres' & Heq').
  { by rewrite trim_idem. }
  rewrite trim_idem in Hres', Heq'. rewrite Heq, Heq'. congruence.
Qed.

(** X22 on a padded description. *)
Lemma generateScenario_accepts_witness :
  generateScenario (mkWorld 0 "2026-01-01T00:00:00.000Z")
    (mkRequest (InString "Build a login page"))
  = generateScenario (mkWorld 0 "2026-01-01T00:00:00.000Z")
      (mkRequest (InString "   Build a login page  ")).
Proof.
  apply (proj2 (generateScenario_accepts (mkWorld 0 "2026-01-01T00:00:00.000Z")
                  "   Build a login page  " ltac:(vm_compute; lia))).
Defined.

(** X23. The controller answers 200 or 400 and nothing else: the pipeline
    never fails on a description, so the handler of failures is not
    reached and no request is answered "Generation failed". *)
Theorem generateScenario_never_fails (world : World) (req : Request) :
  (status (response (generateScenario world req)) = 200%nat
   \/ status (response (generateScenario world req)) = 400%nat)
  /\ response (generateScenario world req) <> generationFailed
  /\ (length (serviceCalls (generateScenario world req)) <= 1)%nat.
Proof.
  destruct req as [input].
  destruct input as [| | | |description| |];
    try (split; [by right | split; [discriminate | cbn; lia]]).
  destruct (Nat.lt_ge_cases (String.length (JsString.trim description)) 10)
    as [Hshort | Hlong].
  - unfold generateScenario. cbn [body_description].
    destruct (String.length description =? 0)%nat;
      [split; [by right | split; [discriminate | cbn; lia]]|].
    rewrite (proj2 (Nat.ltb_lt _ _) Hshort).
    split; [by right | split; [discriminate | cbn; lia]].
  - destruct (generateScenario_long world description Hlong) as (result & _ & ->).
    split; [by left | split; [discriminate | cbn; lia]].
Qed.

(** X24. The form and the server agree. A text the form submits is
    answered by the server with a result, which the API client returns;
    a text the form holds back (its button is disabled) is one the server
    would turn away, the client then throwing the server's own message. *)
Theorem handleSubmit_agrees_with_server (world : World) (description : string) :
  (ScenarioInput.handleSubmit description = [description]
   /\ ScenarioInput.submitDisabled false description = false
   /\ exists result,
        Api.generateScenario (fun req => response (generateScenario world req)) description
        = Returned (SuccessBody result))
  \/ (ScenarioInput.handleSubmit description = []
      /\ ScenarioInput.submitDisabled false description = true
      /\ exists error message,
           body (response (generateScenario world (mkRequest (InString description))))
           = ErrorBody error message
           /\ Api.generateScenario (fun req => response (generateScenario world req))
                description
              = Thrown message).
Proof.
  unfold ScenarioInput.handleSubmit, ScenarioInput.submitDisabled, Api.generateScenario.
  destruct (10 <=? String.length (JsString.trim description))%nat eqn:Hguard.
  - left. apply Nat.leb_le in Hguard.
    destruct (generateScenario_long world description Hguard) as (result & _ & ->).
    split; [done|]. split; [by rewrite (proj2 (Nat.ltb_ge _ _) Hguard)|].
    by exists result.
  - right. apply Nat.leb_gt in Hguard. split; [done|].
    split; [by rewrite (proj2 (Nat.ltb_lt _ _) Hguard)|].
    unfold generateScenario. cbn [body_description].
    destruct (String.length description =? 0)%nat; [by do 2 eexists|].
    rewrite (proj2 (Nat.ltb_lt _ _) Hguard). by do 2 eexists.
Qed.

(** X25. The result is driven by the category alone: two descriptions of
    the same category, run in any two worlds, get the same workflow, the
    same diagram, the same summary, the same entities and the same
    relationships; only the quoted description of the data model can
    differ. *)
Theorem generateWorkflow_by_category (world1 world2 : World) (description1 description2 : string) :
  analysis_type (analyzeDescription description1)
    = analysis_type (analyzeDescription description2) ->
  exists result1 result2,
    outcome (generateWorkflow world1 description1) = Returned result1
    /\ outcome (generateWorkflow world2 description2) = Returned result2
    /\ sr_workflow result1 = sr_workflow result2
    /\ sr_mermaid_diagram result1 = sr_mermaid_diagram result2
    /\ sr_summary result1 = sr_summary result2
    /\ dm_entities (sr_data_model result1) = dm_entities (sr_data_model result2)
    /\ dm_relationships (sr_data_model result1) = dm_relationships (sr_data_model result2).
Proof.
  intros Hsame.
  destruct (analyzeDescription_has_template description1) as [steps Hsteps].
  unfold generateWorkflow, mockAIGenerate. cbn [outcome elapsed ai_workflow ai_summary].
  rewrite <- Hsame.
  change (generateStepsForType (analysis_type (analyzeDescription description1)) description2)
    with (generateStepsForType (analysis_type (analyzeDescription description1)) description1).
  rewrite Hsteps. by do 2 eexists.
Qed.

(** X25 on two shopping requests. *)
Lemma generateWorkflow_by_category_witness :
  exists result1 result2,
    outcome (generateWorkflow (mkWorld 0 "2026-01-01T00:00:00.000Z") "online shop")
      = Returned result1
    /\ outcome (generateWorkflow (mkWorld (1 # 2) "2026-06-30T12:00:00.000Z")
                  "Pay for my ORDER") = Returned result2
    /\ sr_mermaid_diagram result1 = sr_mermaid_diagram result2.
Proof.
  destruct (generateWorkflow_by_category
              (mkWorld 0 "2026-01-01T00:00:00.000Z")
              (mkWorld (1 # 2) "2026-06-30T12:00:00.000Z")
              "online shop" "Pay for my ORDER" ltac:(vm_compute; reflexivity))
    as (result1 & result2 & H1 & H2 & _ & Hdiagram & _).
  by exists result1, result2.
Defined.

(** X26. Whatever the description, the workflow the pipeline returns is a
    template whose steps all have a shape of their own in the shape table
    and distinct node identifiers, and the entities inferred from it never
    include the fallback Record. *)
Theorem generateWorkflow_result_invariants (world : World) (description : string) :
  exists result,
    outcome (generateWorkflow world description) = Returned result
    /\ wellFormedTemplate (sr_workflow result)
    /\ Forall (fun step => exists shape,
                 shapes !! step_type step = Some shape
                 /\ getNodeShape (step_type step) = JsData shape)
         (sr_workflow result)
    /\ NoDup ((fun step => nodeId (step_id step)) <$> sr_workflow result)
    /\ "Record" ∉ (dm_entities (sr_data_model result)).*1.
Proof.
  pose proof (detectType_range types (JsString.toLowerCase description) "general") as Hrange.
  rewrite <- analysis_type_unfold in Hrange.
  assert (analysis_type (analyzeDescription description) ∈ categories) as Hcat.
  { unfold categories. apply elem_of_cons in Hrange as [-> | H];
      apply elem_of_app; [right; by left | by left]. }
  destruct (generators_steps_summary _ description Hcat)
    as (steps & summary & Hsteps & _ & Htable & _).
  destruct (templates_invariants _ _ Htable) as [Hrecord Hshapes].
  pose proof (wellFormedTemplate_table _ _ Htable) as Hwf.
  unfold generateWorkflow, mockAIGenerate. cbn [outcome elapsed ai_workflow ai_summary].
  rewrite Hsteps. eexists. split; [done|]. cbn [sr_workflow sr_data_model].
  split; [done|]. split; [|split].
  - eapply Forall_impl; [exact Hshapes|]. intros step [shape Hshape].
    exists shape. split; [done|].
    unfold getNodeShape, JsObject.getOr, JsObject.get. by rewrite Hshape.
  - destruct Hwf as (_ & Hnd & _).
    rewrite (list_fmap_compose step_id nodeId). apply NoDup_fmap_2; [|done].
    intros a b. apply step_nodeId_inj.
  - unfold generateDataModel. cbn [dm_entities].
    rewrite setProperty_all by apply NoDup_extractEntities.
    rewrite app_nil_l, <- list_fmap_compose, list_fmap_id. done.
Qed.
